(** * Risk-Dashboard: webhook ingestion, SQLite store and latest-per-symbol query

    A shallow embedding of [data_storage.py] and [webhook_receiver.py].

    - Python exceptions and the mutable [DatabaseManager] object are threaded
      through a small state-and-exception monad [M].
    - [price] and [atr] are Python floats, i.e. IEEE-754 binary64 values; they
      are modelled by Rocq's primitive [float], so that [data.price <= 0] and
      [data.price - data.atr] are the very operations the interpreter runs.
    - The SQL text handed to [cursor.execute] is embedded by what the SQLite
      engine computes for it: ORDER BY is a stable sort of the rowid-ordered
      scan (rows that compare equal on the sort key keep their rowid order),
      PARTITION BY symbol sorts by the symbol under the BINARY collation,
      a negative LIMIT means no limit, a LIMIT that is not a signed 64-bit
      integer raises "datatype mismatch", binding a NaN to a REAL column
      binds NULL, and a REAL that is a negative zero is read back as the
      positive zero.
    - The framework renders the dict a handler returns as JSON and refuses
      floats that are infinite or NaN; the request then ends in a 500
      "Internal Server Error".
    - [CURRENT_TIMESTAMP] has a resolution of one second; the text
      'YYYY-MM-DD HH:MM:SS' is ordered as the number of seconds it denotes,
      and the column is modelled by that number.
    - Which calls into [sqlite3] fail, and what the clock reads, is decided
      by the outside world and is an input of every method ([Medium]).
      [conn.rollback()] and [print] are taken not to fail. *)

From Stdlib Require Import ZArith List String Ascii Bool Lia.
From Stdlib Require Import PrimFloat SpecFloat FloatOps FloatAxioms.
From Stdlib Require Import Sorting.Sorted Sorting.Permutation.
Import ListNotations.

#[local] Set Warnings "-inexact-float".

Open Scope string_scope.
Open Scope list_scope.
Open Scope Z_scope.

(** ** Python control flow: state and exceptions *)

Module Py.

(** The exception classes that occur in the two modules. *)
Inductive exn : Type :=
| OperationalError (msg : string)      (* sqlite3.OperationalError *)
| IntegrityError (msg : string)        (* sqlite3.IntegrityError *)
| HTTPException (status_code : Z) (detail : string).

(** [str(e)] *)
Definition str (e : exn) : string :=
  match e with
  | OperationalError msg => msg
  | IntegrityError msg => msg
  | HTTPException _ detail => detail
  end.

Definition M (S A : Type) : Type := S -> (A + exn) * S.

Definition ret {S A} (a : A) : M S A := fun s => (inl a, s).

Definition raise {S A} (e : exn) : M S A := fun s => (inr e, s).

Definition bind {S A B} (m : M S A) (k : A -> M S B) : M S B :=
  fun s =>
    match m s with
    | (inl a, s') => k a s'
    | (inr e, s') => (inr e, s')
    end.

(** [try: m  except Exception as e: handler e] *)
Definition try_except {S A} (m : M S A) (handler : exn -> M S A) : M S A :=
  fun s =>
    match m s with
    | (inl a, s') => (inl a, s')
    | (inr e, s') => handler e s'
    end.

Definition get {S} : M S S := fun s => (inl s, s).

(** [if c: raise e] *)
Definition raise_if {S} (c : bool) (e : exn) : M S unit :=
  if c then raise e else ret tt.

End Py.

Import Py.

Declare Scope py_scope.
Delimit Scope py_scope with py.
Notation "x <- m ;; k" := (bind m (fun x => k))
  (at level 61, m at next level, right associativity) : py_scope.
Notation "m ;; k" := (bind m (fun _ => k))
  (at level 61, right associativity) : py_scope.
Open Scope py_scope.

(** ** The SQLite engine, as far as the queries of [data_storage.py] use it *)

Module Sqlite.

(** A row of table [investment_data]:
    id INTEGER PRIMARY KEY AUTOINCREMENT, symbol TEXT NOT NULL,
    price REAL NOT NULL, atr REAL NOT NULL,
    timestamp DATETIME DEFAULT CURRENT_TIMESTAMP. *)
Record Row : Type := mkRow {
  col_id : Z;
  col_symbol : string;
  col_price : float;
  col_atr : float;
  col_timestamp : Z
}.

(** What a REAL column gives back for the float written to it. A value
    without fractional part is kept as an integer in the record and turned
    into a float again when read: the same float, except that the negative
    zero comes back as the positive one. *)
Definition stored_real (x : float) : float :=
  if (x =? 0)%float then 0%float else x.

Section OrderBy.
Variable precedes : Row -> Row -> bool.

Fixpoint insert_row (x : Row) (l : list Row) : list Row :=
  match l with
  | [] => [x]
  | y :: l' => if precedes x y then x :: l else y :: insert_row x l'
  end.

(** ORDER BY: a stable sort. Rows are inserted from the last to the
    first, each one in front of the first row it may precede, so rows
    with equal keys stay in the order of the input. *)
Definition order_by (l : list Row) : list Row :=
  fold_right insert_row [] l.
End OrderBy.

(** [ORDER BY timestamp DESC] *)
Definition timestamp_desc (a b : Row) : bool :=
  col_timestamp b <=? col_timestamp a.

(** [PARTITION BY symbol ORDER BY timestamp DESC]: the window's input is
    sorted by the partition key, then by the window's own order. *)
Definition partition_symbol_timestamp_desc (a b : Row) : bool :=
  match String.compare (col_symbol a) (col_symbol b) with
  | Lt => true
  | Gt => false
  | Eq => timestamp_desc a b
  end.

(** [ROW_NUMBER()] over the sorted input: numbering restarts at 1 whenever
    the partition key changes. [prev] is the key and number of the row
    before. *)
Fixpoint row_number (prev : option (string * Z)) (l : list Row)
  : list (Row * Z) :=
  match l with
  | [] => []
  | r :: l' =>
      let rn :=
        match prev with
        | Some (s, n) => if String.eqb s (col_symbol r) then n + 1 else 1
        | None => 1
        end in
      (r, rn) :: row_number (Some (col_symbol r, rn)) l'
  end.

(** WITH ranked_data AS (SELECT ..., ROW_NUMBER() OVER
    (PARTITION BY symbol ORDER BY timestamp DESC) as rn FROM investment_data) *)
Definition ranked_data (table : list Row) : list (Row * Z) :=
  row_number None (order_by partition_symbol_timestamp_desc table).

(** SELECT ... FROM ranked_data WHERE rn = 1 ORDER BY timestamp DESC *)
Definition select_latest (table : list Row) : list Row :=
  order_by timestamp_desc
    (map fst (filter (fun p => snd p =? 1) (ranked_data table))).

Definition int64_min : Z := - 2 ^ 63.
Definition int64_max : Z := 2 ^ 63 - 1.

(** [LIMIT n] with [n] an integer literal: a literal outside the signed
    64-bit range is read as a REAL and refused; a negative limit is no
    limit. *)
Definition limit_clause (n : Z) (l : list Row) : list Row + exn :=
  if (n <? int64_min) || (int64_max <? n)
  then inr (IntegrityError "datatype mismatch")
  else if n <? 0 then inl l
  else inl (firstn (Z.to_nat n) l).

(** SELECT symbol, price, atr, timestamp FROM investment_data
    ORDER BY timestamp DESC [LIMIT n] *)
Definition select_all (limit : option Z) (table : list Row)
  : list Row + exn :=
  match limit with
  | None => inl (order_by timestamp_desc table)
  | Some n => limit_clause n (order_by timestamp_desc table)
  end.

End Sqlite.

Import Sqlite.

(** ** data_storage.py *)

Module data_storage.

(** The database file: the committed rows of [investment_data] in rowid
    order, and the AUTOINCREMENT counter kept in [sqlite_sequence]. *)
Record Database : Type := mkDatabase {
  investment_data : list Row;
  sqlite_sequence : Z
}.

(** The thread-local connection: the rows written by the open transaction
    and not committed yet. *)
Record Connection : Type := mkConnection {
  pending : list Row
}.

(** The [DatabaseManager] object together with the file it manages;
    [local_connection] is [self._local.connection], [None] while the
    attribute does not exist. *)
Record DatabaseManager : Type := mkManager {
  db_file : Database;
  local_connection : option Connection
}.

(** The calls into the [sqlite3] module that can fail on the medium. *)
Inductive sqlite_call : Type :=
| Connect | Cursor | Execute | Commit | Fetchall.

(** What the outside world decides during one method call: the reading of
    the clock, and which calls the medium lets fail. *)
Record Medium : Type := mkMedium {
  current_timestamp : Z;
  fails : sqlite_call -> bool
}.

Definition healthy (now : Z) : Medium :=
  {| current_timestamp := now; fails := fun _ => false |}.

Definition DB (A : Type) : Type := M DatabaseManager A.

(** The rows of the open transaction, if there is one. *)
Definition uncommitted (s : DatabaseManager) : list Row :=
  match local_connection s with
  | Some c => pending c
  | None => []
  end.

(** What the connection reads: the committed rows and its own writes. *)
Definition visible (s : DatabaseManager) : list Row :=
  investment_data (db_file s) ++ uncommitted s.

(** [sqlite3.connect(self.db_path, check_same_thread=False)] *)
Definition sqlite3_connect (env : Medium) : DB unit :=
  fun s =>
    if fails env Connect
    then (inr (OperationalError "unable to open database file"), s)
    else (inl tt, {| db_file := db_file s;
                     local_connection := Some {| pending := [] |} |}).

(** [conn.cursor()] *)
Definition cursor (env : Medium) : DB unit :=
  raise_if (fails env Cursor) (OperationalError "cannot open cursor").

(** [conn.rollback()]: the open transaction is discarded. *)
Definition rollback : DB unit :=
  fun s =>
    (inl tt, {| db_file := db_file s;
                local_connection :=
                  match local_connection s with
                  | Some _ => Some {| pending := [] |}
                  | None => None
                  end |}).

(** [conn.commit()]: the open transaction becomes part of the file. *)
Definition commit (env : Medium) : DB unit :=
  fun s =>
    if fails env Commit
    then (inr (OperationalError "database is locked"), s)
    else
      match local_connection s with
      | Some c =>
          (inl tt,
           {| db_file :=
                {| investment_data := investment_data (db_file s) ++ pending c;
                   sqlite_sequence :=
                     sqlite_sequence (db_file s) + Z.of_nat (List.length (pending c)) |};
              local_connection := Some {| pending := [] |} |})
      | None => (inl tt, s)
      end.

(** cursor.execute("INSERT INTO investment_data (symbol, price, atr)
    VALUES (?, ?, ?)", (symbol, price, atr)).
    The id is the next AUTOINCREMENT value, the timestamp the column's
    default. A NaN is bound as NULL and violates NOT NULL. *)
Definition execute_insert (env : Medium) (symbol : string) (price atr : float)
  : DB unit :=
  fun s =>
    if fails env Execute
    then (inr (OperationalError "disk I/O error"), s)
    else if is_nan price
    then (inr (IntegrityError "NOT NULL constraint failed: investment_data.price"), s)
    else if is_nan atr
    then (inr (IntegrityError "NOT NULL constraint failed: investment_data.atr"), s)
    else
      match local_connection s with
      | Some c =>
          let row :=
            {| col_id := sqlite_sequence (db_file s)
                         + Z.of_nat (List.length (pending c)) + 1;
               col_symbol := symbol;
               col_price := stored_real price;
               col_atr := stored_real atr;
               col_timestamp := current_timestamp env |} in
          (inl tt, {| db_file := db_file s;
                      local_connection :=
                        Some {| pending := pending c ++ [row] |} |})
      | None => (inr (OperationalError "no connection"), s)
      end.

(** [cursor.execute(<SELECT>)]: the statement is run on what the
    connection can see. *)
Definition execute_select {A} (env : Medium) (query : list Row -> A + exn)
  : DB A :=
  fun s =>
    if fails env Execute
    then (inr (OperationalError "disk I/O error"), s)
    else (query (visible s), s).

(** [cursor.fetchall()] *)
Definition fetchall {A} (env : Medium) (result : A) : DB A :=
  raise_if (fails env Fetchall) (OperationalError "disk I/O error") ;;
  ret result.

(** A result row as a Python dict, [dict(row)], with the four selected
    columns as keys. *)
Record Dict : Type := mkDict {
  symbol : string;
  price : float;
  atr : float;
  timestamp : Z
}.

Definition dict (row : Row) : Dict :=
  {| symbol := col_symbol row;
     price := col_price row;
     atr := col_atr row;
     timestamp := col_timestamp row |}.

(** [get_connection]: the context manager. The connection is opened when
    the attribute is missing (outside the try), the body of the [with]
    runs at the [yield], and an exception of the body is answered by a
    rollback and raised again. *)
Definition get_connection {A} (env : Medium) (body : DB A) : DB A :=
  s <- get ;;
  match local_connection s with
  | None => sqlite3_connect env
  | Some _ => ret tt
  end ;;
  try_except body (fun e => rollback ;; raise e).

(** [insert_data] *)
Definition insert_data (env : Medium) (symbol : string) (price atr : float)
  : DB bool :=
  try_except
    (get_connection env
       (cursor env ;;
        execute_insert env symbol price atr ;;
        commit env ;;
        ret true))
    (fun e => (* print(f"Error inserting data: {e}") *) ret false).

(** [get_latest_data_per_symbol] *)
Definition get_latest_data_per_symbol (env : Medium) : DB (list Dict) :=
  try_except
    (get_connection env
       (cursor env ;;
        result <- execute_select env (fun t => inl (select_latest t)) ;;
        rows <- fetchall env result ;;
        ret (map dict rows)))
    (fun e => (* print(f"Error fetching data: {e}") *) ret []).

(** [if limit:] on an [Optional[int]]: [None] and [0] are false. *)
Definition truthy (limit : option Z) : bool :=
  match limit with
  | None => false
  | Some n => negb (n =? 0)
  end.

(** [get_all_data]: the LIMIT clause is appended to the query text only
    when [limit] is truthy. *)
Definition get_all_data (env : Medium) (limit : option Z) : DB (list Dict) :=
  try_except
    (get_connection env
       (cursor env ;;
        let query := select_all (if truthy limit then limit else None) in
        result <- execute_select env query ;;
        rows <- fetchall env result ;;
        ret (map dict rows)))
    (fun e => (* print(f"Error fetching all data: {e}") *) ret []).

(** [db_manager = DatabaseManager()]: [_init_db] has created the empty
    table through [get_connection], so the constructing thread holds a
    connection. *)
Definition db_manager : DatabaseManager :=
  {| db_file := {| investment_data := []; sqlite_sequence := 0 |};
     local_connection := Some {| pending := [] |} |}.

(** The two statements of [_init_db], CREATE TABLE IF NOT EXISTS and
    CREATE INDEX IF NOT EXISTS, define data: they take effect at once,
    outside any transaction. A table that is missing is created empty,
    which [Database] does not tell apart from a table without rows; a table
    that exists is left as it is. *)
Definition execute_create (env : Medium) : DB unit :=
  raise_if (fails env Execute) (OperationalError "disk I/O error").

(** [_init_db]: no [try] around the [with]. *)
Definition _init_db (env : Medium) : DB unit :=
  get_connection env
    (cursor env ;;
     execute_create env ;;
     execute_create env ;;
     commit env).

(** [DatabaseManager(db_path)]: [file] is what [db_path] holds when the
    object is constructed; the thread has no connection yet. *)
Definition __init__ (env : Medium) (file : Database)
  : (unit + exn) * DatabaseManager :=
  _init_db env {| db_file := file; local_connection := None |}.

End data_storage.

(** ** webhook_receiver.py *)

Module webhook_receiver.

Import data_storage.

(** [class WebhookData(BaseModel)]: the three fields are required; the
    model puts no constraint on their values. *)
Record WebhookData : Type := mkWebhookData {
  symbol : string;
  price : float;
  atr : float
}.

(** The ["data"] object of the confirmation. *)
Record Summary : Type := mkSummary {
  data_symbol : string;
  data_price : float;
  data_atr : float;
  exit_price : float
}.

(** The dict [receive_webhook] returns. *)
Record Confirmation : Type := mkConfirmation {
  status : string;
  message : string;
  data : Summary
}.

(** [receive_webhook]: the handler of [POST /webhook]. *)
Definition receive_webhook (env : Medium) (data : WebhookData)
  : DB Confirmation :=
  try_except
    ((* Validate data *)
     raise_if (price data <=? 0)%float
       (HTTPException 400 "Price must be positive") ;;
     raise_if (atr data <? 0)%float
       (HTTPException 400 "ATR cannot be negative") ;;
     (* Store in database *)
     success <- insert_data env (symbol data) (price data) (atr data) ;;
     raise_if (negb success)
       (HTTPException 500 "Failed to store data") ;;
     ret {| status := "success";
            message := "Data for " ++ symbol data ++ " received and stored";
            data := {| data_symbol := symbol data;
                       data_price := price data;
                       data_atr := atr data;
                       exit_price := (price data - atr data)%float |} |})
    (fun e =>
       match e with
       | HTTPException _ _ => raise e
       | _ => raise (HTTPException 500 ("Internal error: " ++ str e))
       end).

(** The body of a response: the returned dict as JSON, the body
    [{"detail": detail}] of an [HTTPException], or plain text. *)
Inductive Body : Type :=
| Json (c : Confirmation)
| Detail (detail : string)
| Text (text : string).

(** Whether the dict can be rendered: the JSON encoder of the framework
    runs with [allow_nan=False] and raises [ValueError] on a float that is
    infinite or a NaN. *)
Definition renders (c : Confirmation) : bool :=
  is_finite (data_price (data c)) && is_finite (data_atr (data c))
  && is_finite (exit_price (data c)).

Record Response : Type := mkResponse {
  status_code : Z;
  body : Body
}.

(** What the framework sends for the outcome of a handler: the returned
    dict with status 200 when it renders, for an [HTTPException] its status
    code with its detail, and 500 "Internal Server Error" for any other
    exception, that of the rendering included. *)
Definition respond (outcome : Confirmation + exn) : Response :=
  match outcome with
  | inl c =>
      if renders c
      then {| status_code := 200; body := Json c |}
      else {| status_code := 500; body := Text "Internal Server Error" |}
  | inr (HTTPException code detail) =>
      {| status_code := code; body := Detail detail |}
  | inr _ => {| status_code := 500; body := Text "Internal Server Error" |}
  end.

(** [POST /webhook] as the client sees it. *)
Definition post_webhook (env : Medium) (data : WebhookData)
           (s : DatabaseManager) : Response * DatabaseManager :=
  let (outcome, s') := receive_webhook env data s in
  (respond outcome, s').

(** The dict [health_check] returns. *)
Record Health : Type := mkHealth {
  health_status : string;
  health_database : string;
  records_count : option Z;
  health_error : option string
}.

(** [health_check]: the handler of [GET /health]. *)
Definition health_check (env : Medium) : DB Health :=
  try_except
    ((* Test database connection *)
     data <- get_latest_data_per_symbol env ;;
     ret {| health_status := "healthy";
            health_database := "connected";
            records_count := Some (Z.of_nat (List.length data));
            health_error := None |})
    (fun e =>
       ret {| health_status := "unhealthy";
              health_database := "error";
              records_count := None;
              health_error := Some (str e) |}).

End webhook_receiver.

(** ** dashboard.py

    The page is modelled up to its content: the branch on the loaded data,
    the "Total Symbols" metric and the data frame [df] with its exit price
    column. The widgets around them, the two averages, the currency
    formatting and the CSV export are left out. *)

Module dashboard.

Import data_storage.

(** [load_data] *)
Definition load_data (env : Medium) : DB (list Dict) :=
  get_latest_data_per_symbol env.

(** A row of [df], its columns in the order [main] puts them:
    Symbol, Price, ATR, Exit Price, Last Updated. *)
Record Line : Type := mkLine {
  Symbol : string;
  Price : float;
  ATR : float;
  Exit_Price : float;
  Last_Updated : Z
}.

(** [df = pd.DataFrame(data); df['exit_price'] = df['price'] - df['atr']],
    a subtraction of float64 columns. *)
Definition data_frame (data : list Dict) : list Line :=
  map (fun d => {| Symbol := symbol d;
                   Price := price d;
                   ATR := atr d;
                   Exit_Price := (price d - atr d)%float;
                   Last_Updated := timestamp d |}) data.

Inductive Page : Type :=
| No_data_available                      (* the [if not data:] branch *)
| Investment_data (total_symbols : Z) (df : list Line).

(** [main] *)
Definition main (env : Medium) : DB Page :=
  data <- load_data env ;;
  ret match data with
      | [] => No_data_available
      | _ => Investment_data (Z.of_nat (List.length data)) (data_frame data)
      end.

End dashboard.

(** ** main.py: the Flask receiver *)

Module main.

#[local] Set Warnings "-register-all".











End main.

(** ** wsgi.py *)

Module wsgi.

Definition project_home : string := "/home/yourusername/riskdashboard".

(** [if project_home not in sys.path: sys.path.insert(0, project_home)] *)
Definition add_project_home (sys_path : list string) : list string :=
  if existsb (String.eqb project_home) sys_path
  then sys_path
  else project_home :: sys_path.

End wsgi.

Import data_storage.
Import webhook_receiver.

(** ** Vocabulary of the properties *)

(** The row [insert_data] writes in state [s]. *)
Definition new_row (env : Medium) (s : DatabaseManager)
           (sym : string) (p a : float) : Row :=
  {| col_id := sqlite_sequence (db_file s)
               + Z.of_nat (List.length (uncommitted s)) + 1;
     col_symbol := sym;
     col_price := stored_real p;
     col_atr := stored_real a;
     col_timestamp := current_timestamp env |}.

(** Whether every call of [insert_data] into [sqlite3] goes through. *)
Definition insert_goes_through (env : Medium) (s : DatabaseManager)
           (p a : float) : bool :=
  negb (match local_connection s with
        | None => fails env Connect
        | Some _ => false
        end)
  && negb (fails env Cursor)
  && negb (fails env Execute)
  && negb (is_nan p) && negb (is_nan a)
  && negb (fails env Commit).

(** The state a failed [insert_data] leaves: the file untouched, the open
    transaction rolled back. *)
Definition after_failure (env : Medium) (s : DatabaseManager)
  : DatabaseManager :=
  {| db_file := db_file s;
     local_connection :=
       match local_connection s with
       | Some _ => Some {| pending := [] |}
       | None => if fails env Connect then None else Some {| pending := [] |}
       end |}.

(** The dict [receive_webhook] returns for [data]. *)
Definition confirmation (data : WebhookData) : Confirmation :=
  {| status := "success";
     message := "Data for " ++ symbol data ++ " received and stored";
     data := {| data_symbol := symbol data;
                data_price := price data;
                data_atr := atr data;
                exit_price := (price data - atr data)%float |} |}.

(** Following the spec's words, "empty after trimming": every character of
    the symbol is ASCII whitespace. *)
Definition is_space (c : ascii) : bool :=
  let n := nat_of_ascii c in
  ((9 <=? n) && (n <=? 13) || (n =? 32))%nat.

Fixpoint empty_after_trimming (s : string) : bool :=
  match s with
  | EmptyString => true
  | String c s' => is_space c && empty_after_trimming s'
  end.

(** Following the spec's words: the request is rejected as a client error
    and the Store's row count is unchanged. *)
Definition rejected_without_write (env : Medium) (d : WebhookData)
           (s : DatabaseManager) : Prop :=
  let r := post_webhook env d s in
  status_code (fst r) = 400 /\
  List.length (investment_data (db_file (snd r))) =
  List.length (investment_data (db_file s)).

(** A medium on which the commit fails. *)
Definition commit_fails (now : Z) : Medium :=
  {| current_timestamp := now;
     fails := fun c => match c with Commit => true | _ => false end |}.

(** The first row of every run of equal symbols; [prev] is the symbol of
    the row before the list. *)
Fixpoint first_rows (prev : option string) (l : list Row) : list Row :=
  match l with
  | [] => []
  | r :: l' =>
      (if match prev with
          | Some s => String.eqb s (col_symbol r)
          | None => false
          end
       then [] else [r]) ++ first_rows (Some (col_symbol r)) l'
  end.

(** The symbol before the list is not above any symbol of the list. *)
Definition bounded_by (prev : option string) (l : list Row) : Prop :=
  forall s, prev = Some s ->
            Forall (fun r => String.compare s (col_symbol r) <> Gt) l.

(** Sorted as the window needs its input. *)
Definition partition_sorted : list Row -> Prop :=
  StronglySorted (fun a b => partition_symbol_timestamp_desc a b = true).

(** Every call into [sqlite3] goes through. *)
Definition works (env : Medium) : Prop := forall c, fails env c = false.

(** The connection exists and has no open transaction. *)
Definition quiet (s : DatabaseManager) : Prop :=
  local_connection s = Some {| pending := [] |}.

(** One call of [insert_data], with what the medium does during it. *)
Record Append : Type := mkAppend {
  call_env : Medium;
  call_symbol : string;
  call_price : float;
  call_atr : float
}.

(** The calls are made one after the other; the result lists those the
    store confirmed. *)
Fixpoint appends (calls : list Append) (s : DatabaseManager)
  : list Append * DatabaseManager :=
  match calls with
  | [] => ([], s)
  | c :: calls' =>
      match insert_data (call_env c) (call_symbol c) (call_price c)
                        (call_atr c) s with
      | (inl true, s') =>
          let (confirmed, s'') := appends calls' s' in (c :: confirmed, s'')
      | (_, s') => appends calls' s'
      end
  end.

(** The observation a confirmed call has put into the table. *)
Definition observation (c : Append) : Dict :=
  {| data_storage.symbol := call_symbol c;
     data_storage.price := stored_real (call_price c);
     data_storage.atr := stored_real (call_atr c);
     timestamp := current_timestamp (call_env c) |}.

(** Two webhooks for one symbol that arrive within the same second. *)
Definition same_second : list Append :=
  [ {| call_env := healthy 1700000000; call_symbol := "AAPL";
       call_price := 150.25; call_atr := 2.35 |};
    {| call_env := healthy 1700000000; call_symbol := "AAPL";
       call_price := 151; call_atr := 2 |} ].

(** A medium on which running a statement fails. *)
Definition execute_fails (now : Z) : Medium :=
  {| current_timestamp := now;
     fails := fun c => match c with Execute => true | _ => false end |}.

(** The rows are in rowid order. *)
Definition ids_increasing : list Row -> Prop :=
  StronglySorted (fun a b => col_id a < col_id b).

(** AUTOINCREMENT hands out increasing ids. *)
Definition ids_below_sequence (s : DatabaseManager) : Prop :=
  ids_increasing (investment_data (db_file s)) /\
  Forall (fun r => col_id r <= sqlite_sequence (db_file s))
         (investment_data (db_file s)).

(** [a] is listed before [b]: by the key, and by the id when the keys tie. *)
Definition stably_before (precedes : Row -> Row -> bool) (a b : Row) : Prop :=
  precedes a b = true /\ (precedes b a = true -> col_id a < col_id b).

(** A sequence of [POST /webhook] requests, each with what the medium does
    during it; the result lists the answers in order. *)
Fixpoint posts (requests : list (Medium * WebhookData)) (s : DatabaseManager)
  : list Response * DatabaseManager :=
  match requests with
  | [] => ([], s)
  | (env, d) :: requests' =>
      let (r, s') := post_webhook env d s in
      let (rs, s'') := posts requests' s' in
      (r :: rs, s'')
  end.

(** The number of answers with status 200. *)
Definition successes (rs : list Response) : nat :=
  List.length (filter (fun r => status_code r =? 200) rs).

(** The answer is not that of an [HTTPException] of the handler: it is the
    confirmation or the plain 500 of a confirmation that did not render. *)
Definition handler_returned (r : Response) : bool :=
  match body r with
  | Detail _ => false
  | _ => true
  end.

(** The number of requests on which the handler returned its dict. *)
Definition returns (rs : list Response) : nat :=
  List.length (filter handler_returned rs).

(** The row holds what the call was given; the two floats are compared as
    Python's [==] compares them. *)
Definition holds_call (r : Row) (c : Append) : Prop :=
  col_symbol r = call_symbol c /\
  (col_price r =? call_price c)%float = true /\
  (col_atr r =? call_atr c)%float = true /\
  col_timestamp r = current_timestamp (call_env c).

(** The row would pass the two comparisons of [receive_webhook], and
    neither float is a NaN. *)
Definition passes_validation (r : Row) : Prop :=
  (col_price r <=? 0)%float = false /\
  (col_atr r <? 0)%float = false /\
  is_nan (col_price r) = false /\
  is_nan (col_atr r) = false.

(** A call the read needs fails on the medium. *)
Definition read_fails (env : Medium) : bool :=
  fails env Cursor || fails env Execute || fails env Fetchall.

(** The four calls the constructor makes all go through. *)
Definition init_goes_through (env : Medium) : bool :=
  negb (fails env Connect) && negb (fails env Cursor)
  && negb (fails env Execute) && negb (fails env Commit).

(** The ids of the table are 1, 2, ... and the counter is the last of them. *)
Definition ids_consecutive (s : DatabaseManager) : Prop :=
  sqlite_sequence (db_file s) =
    Z.of_nat (List.length (investment_data (db_file s))) /\
  map col_id (investment_data (db_file s)) =
    map Z.of_nat (seq 1 (List.length (investment_data (db_file s)))).

(** The request passes both comparisons and every call of the insert goes
    through. *)
Definition accepted (env : Medium) (d : WebhookData) (s : DatabaseManager)
  : bool :=
  negb (price d <=? 0)%float && negb (atr d <? 0)%float
  && insert_goes_through env s (price d) (atr d).

(** The read cannot be made: the thread has no connection and none can be
    opened, or a call of the read fails on the medium. *)
Definition load_fails (env : Medium) (s : DatabaseManager) : bool :=
  match local_connection s with
  | None => fails env Connect
  | Some _ => false
  end || read_fails env.

(** * Properties *)

(** ** Floats *)

Lemma Prim2SF_zero : Prim2SF 0%float = S754_zero false.
Proof. reflexivity. Qed.

Lemma float_eqb_refl (x : float) : is_nan x = false -> (x =? x)%float = true.
Proof. unfold is_nan. apply negb_false_iff. Qed.

(** A float that is not [<= 0] is not a zero. *)
Lemma float_not_leb_zero (x : float) :
  (x <=? 0)%float = false -> (x =? 0)%float = false.
Proof.
  rewrite eqb_spec, leb_spec. unfold SFeqb, SFleb.
  destruct (SFcompare _ _) as [[]|]; congruence.
Qed.

Lemma float_eqb_zero_sym (x : float) :
  (x =? 0)%float = true -> (0 =? x)%float = true.
Proof.
  rewrite !eqb_spec, Prim2SF_zero. unfold SFeqb.
  destruct (Prim2SF x) as [s|s| |s m e]; simpl;
    try discriminate; try reflexivity; destruct s; discriminate.
Qed.

(** Taking a zero of either sign from a float that is not a zero gives the
    same float. *)
Lemma float_sub_zero (p a : float) :
  (p <=? 0)%float = false -> (a =? 0)%float = true ->
  (p - 0)%float = (p - a)%float.
Proof.
  rewrite leb_spec, eqb_spec, Prim2SF_zero. intros Hp Ha.
  apply Prim2SF_inj. rewrite !sub_spec, Prim2SF_zero.
  unfold SFleb, SFeqb in *.
  destruct (Prim2SF a) as [sa|sa| |sa ma ea]; simpl in Ha;
    try discriminate; try (destruct sa; discriminate).
  destruct (Prim2SF p) as [sp|sp| |sp mp ep]; simpl in Hp;
    try discriminate; try reflexivity.
  all: destruct sp; try discriminate; reflexivity.
Qed.

(** What is read back is equal ([==]) to what was written. *)
Lemma stored_real_eqb (x : float) :
  is_nan x = false -> (stored_real x =? x)%float = true.
Proof.
  intros H. unfold stored_real.
  destruct (x =? 0)%float eqn:E;
    [apply float_eqb_zero_sym, E | apply float_eqb_refl, H].
Qed.

(** A float that passes the comparison of the price is read back as it is. *)
Lemma stored_real_price (p : float) :
  (p <=? 0)%float = false -> stored_real p = p.
Proof.
  intros H. unfold stored_real. rewrite (float_not_leb_zero p H). reflexivity.
Qed.

(** The exit price computed from what is read back is the one computed
    from what was sent. *)
Lemma stored_real_exit_price (p a : float) :
  (p <=? 0)%float = false ->
  (stored_real p - stored_real a)%float = (p - a)%float.
Proof.
  intros H. rewrite (stored_real_price p H). unfold stored_real.
  destruct (a =? 0)%float eqn:E; [apply float_sub_zero; assumption|].
  reflexivity.
Qed.

Lemma stored_real_not_nan (x : float) :
  is_nan x = false -> is_nan (stored_real x) = false.
Proof.
  intros H. unfold stored_real. destruct (x =? 0)%float; [reflexivity|exact H].
Qed.

Lemma stored_real_not_negative (a : float) :
  (a <? 0)%float = false -> (stored_real a <? 0)%float = false.
Proof.
  intros H. unfold stored_real. destruct (a =? 0)%float; [reflexivity|exact H].
Qed.

(** ** Running the monad *)

Ltac unfold_py :=
  cbv beta iota delta [try_except bind ret raise raise_if get] in *.

Ltac unfold_sqlite3 :=
  unfold get_connection, sqlite3_connect, cursor, execute_insert,
    execute_select, fetchall, commit, rollback in *.

Lemma insert_data_true (env : Medium) (sym : string) (p a : float)
      (s : DatabaseManager) :
  insert_goes_through env s p a = true ->
  insert_data env sym p a s =
    (inl true,
     {| db_file :=
          {| investment_data := visible s ++ [new_row env s sym p a];
             sqlite_sequence :=
               sqlite_sequence (db_file s)
               + Z.of_nat (List.length (uncommitted s)) + 1 |};
        local_connection := Some {| pending := [] |} |}).
Proof.
  unfold insert_goes_through, insert_data, new_row, visible, uncommitted.
  unfold_sqlite3; unfold_py.
  destruct s as [[rows seq] [[pend]|]]; simpl;
    destruct (fails env Connect), (fails env Cursor), (fails env Execute),
      (is_nan p), (is_nan a), (fails env Commit); simpl;
    try discriminate; intros _;
    rewrite ?List.length_app, <- ?app_assoc, ?Nat2Z.inj_add, ?Z.add_assoc,
      ?app_nil_r; simpl; rewrite ?Z.add_0_r; reflexivity.
Qed.

Lemma insert_data_false (env : Medium) (sym : string) (p a : float)
      (s : DatabaseManager) :
  insert_goes_through env s p a = false ->
  insert_data env sym p a s = (inl false, after_failure env s).
Proof.
  unfold insert_goes_through, insert_data, after_failure.
  unfold_sqlite3; unfold_py.
  destruct s as [[rows seq] [[pend]|]]; simpl;
    destruct (fails env Connect), (fails env Cursor), (fails env Execute),
      (is_nan p), (is_nan a), (fails env Commit); simpl;
    try discriminate; intros _; reflexivity.
Qed.

Lemma uncommitted_after_failure (env : Medium) (s : DatabaseManager) :
  uncommitted (after_failure env s) = [].
Proof.
  unfold uncommitted, after_failure. simpl.
  destruct (local_connection s); [reflexivity|].
  destruct (fails env Connect); reflexivity.
Qed.

Lemma insert_goes_through_not_nan
      (env : Medium) (s : DatabaseManager) (p a : float) :
  insert_goes_through env s p a = true ->
  is_nan p = false /\ is_nan a = false.
Proof.
  unfold insert_goes_through.
  destruct (is_nan p), (is_nan a); rewrite ?andb_false_r; simpl;
    try discriminate; auto.
  all: repeat rewrite ?andb_false_r, ?andb_false_l; try discriminate.
Qed.

(** ** The handler of [POST /webhook], step by step *)

Lemma receive_webhook_run (env : Medium) (d : WebhookData) (s : DatabaseManager) :
  receive_webhook env d s =
    if (price d <=? 0)%float
    then (inr (HTTPException 400 "Price must be positive"), s)
    else if (atr d <? 0)%float
    then (inr (HTTPException 400 "ATR cannot be negative"), s)
    else
      match insert_data env (symbol d) (price d) (atr d) s with
      | (inl true, s') => (inl (confirmation d), s')
      | (inl false, s') => (inr (HTTPException 500 "Failed to store data"), s')
      | (inr e, s') =>
          (inr match e with
               | HTTPException _ _ => e
               | _ => HTTPException 500 ("Internal error: " ++ str e)
               end, s')
      end.
Proof.
  unfold receive_webhook, confirmation; unfold_py.
  destruct (price d <=? 0)%float; [reflexivity|].
  destruct (atr d <? 0)%float; [reflexivity|].
  destruct (insert_data env (symbol d) (price d) (atr d) s) as [[[|]|[]] s'];
    reflexivity.
Qed.

(** [insert_data] answers [True] exactly when every call went through. *)
Lemma insert_data_answer (env : Medium) (sym : string) (p a : float)
      (s : DatabaseManager) :
  fst (insert_data env sym p a s) = inl (insert_goes_through env s p a).
Proof.
  destruct (insert_goes_through env s p a) eqn:E.
  - rewrite (insert_data_true _ _ _ _ _ E). reflexivity.
  - rewrite (insert_data_false _ _ _ _ _ E). reflexivity.
Qed.

Lemma post_webhook_run (env : Medium) (d : WebhookData) (s : DatabaseManager) :
  post_webhook env d s =
    if (price d <=? 0)%float
    then ({| status_code := 400; body := Detail "Price must be positive" |}, s)
    else if (atr d <? 0)%float
    then ({| status_code := 400; body := Detail "ATR cannot be negative" |}, s)
    else
      (if insert_goes_through env s (price d) (atr d)
       then if renders (confirmation d)
            then {| status_code := 200; body := Json (confirmation d) |}
            else {| status_code := 500; body := Text "Internal Server Error" |}
       else {| status_code := 500; body := Detail "Failed to store data" |},
       snd (insert_data env (symbol d) (price d) (atr d) s)).
Proof.
  unfold post_webhook. rewrite receive_webhook_run.
  destruct (price d <=? 0)%float; [reflexivity|].
  destruct (atr d <? 0)%float; [reflexivity|].
  pose proof (insert_data_answer env (symbol d) (price d) (atr d) s) as H.
  destruct (insert_data env (symbol d) (price d) (atr d) s) as [[b|e] s'];
    simpl in H; [|discriminate].
  injection H as ->.
  destruct (insert_goes_through env s (price d) (atr d)); reflexivity.
Qed.

(** ** Validation *)

(** C7: a payload with [price <= 0] or [atr < 0] is answered with HTTP 400
    and the reason of the first rule that fails, the price being checked
    before the ATR; the manager and its database are left exactly as they
    were, so no row is written. *)
Theorem invalid_price_or_atr_rejected
        (env : Medium) (d : WebhookData) (s : DatabaseManager) :
  (price d <=? 0)%float = true \/ (atr d <? 0)%float = true ->
  post_webhook env d s =
    ({| status_code := 400;
        body := Detail (if (price d <=? 0)%float
                        then "Price must be positive"
                        else "ATR cannot be negative") |},
     s).
Proof.
  intros H. rewrite post_webhook_run.
  destruct (price d <=? 0)%float; [reflexivity|].
  destruct H as [H|H]; [discriminate|].
  rewrite H. reflexivity.
Qed.

Lemma invalid_price_or_atr_rejected_witness :
  post_webhook (healthy 1700000000)
    {| symbol := "AAPL"; price := (-1)%float; atr := (-2)%float |} db_manager =
    ({| status_code := 400; body := Detail "Price must be positive" |},
     db_manager).
Proof.
  apply (invalid_price_or_atr_rejected (healthy 1700000000)
           {| symbol := "AAPL"; price := (-1)%float; atr := (-2)%float |}
           db_manager).
  left. reflexivity.
Defined.

(** C3, the claim as stated fails: a payload whose symbol is empty, and one
    whose symbol is only blanks, pass the handler, are answered with 200 and
    add a row to the table. *)
Lemma blank_symbol_is_not_rejected :
  let d1 := {| symbol := ""; price := 150.25; atr := 2.35 |} in
  let d2 := {| symbol := "  "; price := 150.25; atr := 2.35 |} in
  (empty_after_trimming (symbol d1) = true /\
   ~ rejected_without_write (healthy 1700000000) d1 db_manager) /\
  (empty_after_trimming (symbol d2) = true /\
   ~ rejected_without_write (healthy 1700000000) d2 db_manager).
Proof.
  repeat split; intros [H _]; vm_compute in H; discriminate.
Qed.

(** C3, amended: the handler has no rule for the symbol. A payload whose
    symbol is empty after trimming is rejected with 400 only for its price
    or ATR, and then nothing is written; otherwise the insert is tried with
    the symbol as it was sent. When the store does not confirm, the answer
    is 500; when it confirms, the row is in the table under that symbol,
    and the answer is 200 provided the numbers of the confirmation are
    finite. *)
Theorem blank_symbol_is_stored_as_sent
        (env : Medium) (d : WebhookData) (s : DatabaseManager) :
  empty_after_trimming (symbol d) = true ->
  ((price d <=? 0)%float = true ->
   post_webhook env d s =
     ({| status_code := 400; body := Detail "Price must be positive" |}, s)) /\
  ((price d <=? 0)%float = false -> (atr d <? 0)%float = true ->
   post_webhook env d s =
     ({| status_code := 400; body := Detail "ATR cannot be negative" |}, s)) /\
  ((price d <=? 0)%float = false -> (atr d <? 0)%float = false ->
   (insert_goes_through env s (price d) (atr d) = false ->
    fst (post_webhook env d s) =
      {| status_code := 500; body := Detail "Failed to store data" |}) /\
   (insert_goes_through env s (price d) (atr d) = true ->
    investment_data (db_file (snd (post_webhook env d s))) =
      visible s ++ [new_row env s (symbol d) (price d) (atr d)] /\
    (renders (confirmation d) = true ->
     fst (post_webhook env d s) =
       {| status_code := 200; body := Json (confirmation d) |}))).
Proof.
  intros _. rewrite post_webhook_run. split; [|split].
  - intros ->. reflexivity.
  - intros -> ->. reflexivity.
  - intros -> ->. split.
    + intros ->. reflexivity.
    + intros H. rewrite H. cbn [fst snd].
      rewrite (insert_data_true _ _ _ _ _ H). split; [reflexivity|].
      intros ->. reflexivity.
Qed.

Lemma blank_symbol_is_stored_as_sent_witness :
  let d := {| symbol := "  "; price := 150.25; atr := 2.35 |} in
  status_code (fst (post_webhook (healthy 1700000000) d db_manager)) = 200 /\
  map col_symbol
    (investment_data
       (db_file (snd (post_webhook (healthy 1700000000) d db_manager)))) =
    ["  "].
Proof.
  intros d.
  destruct (blank_symbol_is_stored_as_sent (healthy 1700000000) d db_manager
              eq_refl) as (_ & _ & H).
  destruct (H eq_refl eq_refl) as [_ H1].
  destruct (H1 eq_refl) as [H2 H3].
  split.
  - rewrite (H3 eq_refl). reflexivity.
  - rewrite H2. reflexivity.
Defined.

(** ** Appending *)

(** C10: [insert_data] never raises. It answers [True], and then the row
    has been committed behind the rows the connection could see; or it
    answers [False], and then the database file is as it was. In both cases
    no uncommitted row is left on the connection. *)
Theorem insert_data_never_raises
        (env : Medium) (sym : string) (p a : float) (s : DatabaseManager) :
  exists (b : bool) (s' : DatabaseManager),
    insert_data env sym p a s = (inl b, s') /\
    uncommitted s' = [] /\
    (if b
     then investment_data (db_file s') = visible s ++ [new_row env s sym p a]
     else db_file s' = db_file s).
Proof.
  destruct (insert_goes_through env s p a) eqn:E.
  - exists true. eexists. split; [apply insert_data_true, E|].
    split; reflexivity.
  - exists false, (after_failure env s).
    split; [apply insert_data_false, E|].
    split; [apply uncommitted_after_failure | reflexivity].
Qed.

(** C6, the claim as stated fails: a payload with an infinite price passes
    the validation and is stored, and yet the answer is not the
    confirmation but a 500. *)
Lemma infinite_price_is_stored_but_not_confirmed :
  let d := {| symbol := "AAPL"; price := infinity; atr := 2.35 |} in
  let r := post_webhook (healthy 1700000000) d db_manager in
  (price d <=? 0)%float = false /\
  (atr d <? 0)%float = false /\
  fst (insert_data (healthy 1700000000) (symbol d) (price d) (atr d)
                   db_manager) = inl true /\
  status_code (fst r) = 500 /\
  List.length (investment_data (db_file (snd r))) = 1%nat.
Proof. vm_compute. repeat split. Qed.

(** C6, amended: when the payload passes validation, [insert_data] answers
    [True] and the price, the ATR and their difference are finite, the
    endpoint answers 200 with the symbol, price and ATR as submitted and
    [exit_price = price - atr]; the state after the request is the one
    [insert_data] leaves, and the row it added carries the symbol, the
    price, an ATR equal ([==]) to the one submitted and the clock reading,
    and no exit price. *)
Theorem success_confirmation
        (env : Medium) (d : WebhookData) (s : DatabaseManager) :
  (price d <=? 0)%float = false ->
  (atr d <? 0)%float = false ->
  fst (insert_data env (symbol d) (price d) (atr d) s) = inl true ->
  is_finite (price d) = true ->
  is_finite (atr d) = true ->
  is_finite (price d - atr d) = true ->
  post_webhook env d s =
    ({| status_code := 200;
        body := Json
          {| status := "success";
             message := "Data for " ++ symbol d ++ " received and stored";
             data := {| data_symbol := symbol d;
                        data_price := price d;
                        data_atr := atr d;
                        exit_price := (price d - atr d)%float |} |} |},
     snd (insert_data env (symbol d) (price d) (atr d) s)) /\
  exists stored_atr : float,
    (stored_atr =? atr d)%float = true /\
    investment_data (db_file (snd (post_webhook env d s))) =
      visible s ++
      [{| col_id := sqlite_sequence (db_file s)
                    + Z.of_nat (List.length (uncommitted s)) + 1;
          col_symbol := symbol d;
          col_price := price d;
          col_atr := stored_atr;
          col_timestamp := current_timestamp env |}].
Proof.
  intros Hp Ha Hok Fp Fa Fe. rewrite insert_data_answer in Hok.
  injection Hok as Hok.
  destruct (insert_goes_through_not_nan _ _ _ _ Hok) as [_ Na].
  assert (Hr : renders (confirmation d) = true).
  { unfold renders, confirmation. cbn. rewrite Fp, Fa, Fe. reflexivity. }
  rewrite post_webhook_run, Hp, Ha, Hok, Hr. split; [reflexivity|].
  exists (stored_real (atr d)). split; [apply stored_real_eqb, Na|].
  cbn [snd]. rewrite (insert_data_true _ _ _ _ _ Hok).
  unfold new_row. rewrite (stored_real_price _ Hp). reflexivity.
Qed.

Lemma success_confirmation_witness :
  let d := {| symbol := "AAPL"; price := 150.25; atr := 2.35 |} in
  let r := post_webhook (healthy 1700000000) d db_manager in
  status_code (fst r) = 200 /\
  (exists c, body (fst r) = Json c /\ exit_price (data c) = 147.90%float) /\
  map col_price (investment_data (db_file (snd r))) = [150.25%float].
Proof.
  intros d r.
  destruct (success_confirmation (healthy 1700000000) d db_manager
              eq_refl eq_refl eq_refl eq_refl eq_refl eq_refl)
    as [H1 (a & _ & H2)].
  subst r. rewrite H2, H1. repeat split.
  eexists. split; reflexivity.
Defined.

(** C8: when validation passes and [insert_data] answers [False], the
    endpoint answers 500; and whenever the endpoint answers 200,
    [insert_data] has answered [True] and the state returned is the one with
    the row committed. *)
Theorem success_only_if_stored
        (env : Medium) (d : WebhookData) (s : DatabaseManager) :
  ((price d <=? 0)%float = false ->
   (atr d <? 0)%float = false ->
   fst (insert_data env (symbol d) (price d) (atr d) s) = inl false ->
   fst (post_webhook env d s) =
     {| status_code := 500; body := Detail "Failed to store data" |}) /\
  (status_code (fst (post_webhook env d s)) = 200 ->
   fst (insert_data env (symbol d) (price d) (atr d) s) = inl true /\
   investment_data (db_file (snd (post_webhook env d s))) =
     visible s ++ [new_row env s (symbol d) (price d) (atr d)]).
Proof.
  rewrite post_webhook_run, insert_data_answer. split.
  - intros -> -> H. injection H as ->. reflexivity.
  - destruct (price d <=? 0)%float; [discriminate|].
    destruct (atr d <? 0)%float; [discriminate|].
    destruct (insert_goes_through env s (price d) (atr d)) eqn:E;
      [|discriminate].
    intros _. split; [reflexivity|].
    simpl. rewrite (insert_data_true _ _ _ _ _ E). reflexivity.
Qed.

Lemma success_only_if_stored_witness :
  let d := {| symbol := "AAPL"; price := 150.25; atr := 2.35 |} in
  fst (post_webhook (commit_fails 1700000000) d db_manager) =
    {| status_code := 500; body := Detail "Failed to store data" |} /\
  fst (insert_data (healthy 1700000000) "AAPL" 150.25 2.35 db_manager) =
    inl true.
Proof.
  intros d. split.
  - apply (success_only_if_stored (commit_fails 1700000000) d db_manager);
      reflexivity.
  - apply (success_only_if_stored (healthy 1700000000) d db_manager).
    reflexivity.
Defined.

(** ** ORDER BY sorts and permutes *)

Section OrderByFacts.

Variable precedes : Row -> Row -> bool.

Hypothesis precedes_total :
  forall a b, precedes a b = true \/ precedes b a = true.

Hypothesis precedes_trans :
  forall a b c, precedes a b = true -> precedes b c = true ->
                precedes a c = true.

Let before (a b : Row) : Prop := precedes a b = true.

Lemma insert_row_perm (x : Row) (l : list Row) :
  Permutation (insert_row precedes x l) (x :: l).
Proof.
  induction l as [|y l IH]; simpl.
  - apply Permutation_refl.
  - destruct (precedes x y).
    + apply Permutation_refl.
    + eapply perm_trans; [apply perm_skip, IH | apply perm_swap].
Qed.

Lemma order_by_perm (l : list Row) : Permutation (order_by precedes l) l.
Proof.
  induction l as [|x l IH]; simpl.
  - apply perm_nil.
  - eapply perm_trans; [apply insert_row_perm | apply perm_skip, IH].
Qed.

Lemma insert_row_sorted (x : Row) (l : list Row) :
  StronglySorted before l -> StronglySorted before (insert_row precedes x l).
Proof.
  induction 1 as [|y l Hs IH Hy]; simpl.
  - constructor; constructor.
  - destruct (precedes x y) eqn:E.
    + constructor; [constructor; assumption|].
      constructor; [exact E|].
      eapply Forall_impl; [|exact Hy].
      intros z Hz. exact (precedes_trans _ _ _ E Hz).
    + constructor; [exact IH|].
      apply (Permutation_Forall (Permutation_sym (insert_row_perm x l))).
      constructor; [|exact Hy].
      destruct (precedes_total x y) as [H|H]; [congruence|exact H].
Qed.

Lemma order_by_sorted (l : list Row) :
  StronglySorted before (order_by precedes l).
Proof.
  induction l as [|x l IH]; simpl.
  - constructor.
  - apply insert_row_sorted, IH.
Qed.

Lemma order_by_In (l : list Row) (r : Row) :
  In r (order_by precedes l) <-> In r l.
Proof.
  split; apply Permutation_in;
    [apply order_by_perm | apply Permutation_sym, order_by_perm].
Qed.

End OrderByFacts.

(** ** The two sort keys are total preorders *)

Lemma timestamp_desc_total (a b : Row) :
  timestamp_desc a b = true \/ timestamp_desc b a = true.
Proof. unfold timestamp_desc. lia. Qed.

Lemma timestamp_desc_trans (a b c : Row) :
  timestamp_desc a b = true -> timestamp_desc b c = true ->
  timestamp_desc a c = true.
Proof. unfold timestamp_desc. lia. Qed.

Lemma ascii_compare_refl (x : ascii) : Ascii.compare x x = Eq.
Proof. unfold Ascii.compare. apply N.compare_refl. Qed.

Lemma ascii_compare_lt_trans (x y z : ascii) :
  Ascii.compare x y = Lt -> Ascii.compare y z = Lt -> Ascii.compare x z = Lt.
Proof. unfold Ascii.compare. rewrite !N.compare_lt_iff. lia. Qed.

Lemma string_compare_refl (a : string) : String.compare a a = Eq.
Proof.
  induction a as [|x a IH]; simpl; [reflexivity|].
  rewrite ascii_compare_refl. exact IH.
Qed.

Lemma string_compare_lt_trans (a b c : string) :
  String.compare a b = Lt -> String.compare b c = Lt ->
  String.compare a c = Lt.
Proof.
  revert b c.
  induction a as [|x a IH]; intros [|y b] [|z c]; simpl;
    try discriminate; try reflexivity.
  destruct (Ascii.compare x y) eqn:Exy; try discriminate;
    destruct (Ascii.compare y z) eqn:Eyz; try discriminate; intros H1 H2.
  - apply Ascii.compare_eq_iff in Exy, Eyz. subst.
    rewrite ascii_compare_refl. eapply IH; eassumption.
  - apply Ascii.compare_eq_iff in Exy. subst. rewrite Eyz. reflexivity.
  - apply Ascii.compare_eq_iff in Eyz. subst. rewrite Exy. reflexivity.
  - rewrite (ascii_compare_lt_trans _ _ _ Exy Eyz). reflexivity.
Qed.

Lemma string_compare_gt_lt (a b : string) :
  String.compare a b = Gt <-> String.compare b a = Lt.
Proof.
  rewrite (String.compare_antisym a b).
  destruct (String.compare b a); simpl; split; congruence.
Qed.

Lemma partition_order_total (a b : Row) :
  partition_symbol_timestamp_desc a b = true \/
  partition_symbol_timestamp_desc b a = true.
Proof.
  unfold partition_symbol_timestamp_desc.
  rewrite (String.compare_antisym (col_symbol a) (col_symbol b)).
  destruct (String.compare (col_symbol b) (col_symbol a)); simpl; auto.
  apply timestamp_desc_total.
Qed.

Lemma partition_order_trans (a b c : Row) :
  partition_symbol_timestamp_desc a b = true ->
  partition_symbol_timestamp_desc b c = true ->
  partition_symbol_timestamp_desc a c = true.
Proof.
  unfold partition_symbol_timestamp_desc.
  destruct (String.compare (col_symbol a) (col_symbol b)) eqn:Eab;
    try discriminate;
    destruct (String.compare (col_symbol b) (col_symbol c)) eqn:Ebc;
    try discriminate; intros H1 H2.
  - apply String.compare_eq_iff in Eab, Ebc. rewrite Eab, Ebc.
    rewrite string_compare_refl. eapply timestamp_desc_trans; eassumption.
  - apply String.compare_eq_iff in Eab. rewrite Eab, Ebc. reflexivity.
  - apply String.compare_eq_iff in Ebc. rewrite <- Ebc, Eab. reflexivity.
  - rewrite (string_compare_lt_trans _ _ _ Eab Ebc). reflexivity.
Qed.

(** ** The rows numbered 1 *)

Lemma row_number_one (l : list Row) (prev : option (string * Z)) :
  match prev with Some (_, n) => 1 <= n | None => True end ->
  map fst (filter (fun p => snd p =? 1) (row_number prev l)) =
  first_rows (option_map fst prev) l.
Proof.
  revert prev. induction l as [|r l IH]; intros prev Hprev; [reflexivity|].
  cbn [row_number first_rows filter].
  destruct prev as [[s n]|]; cbn [option_map fst snd].
  - destruct (String.eqb s (col_symbol r)) eqn:E.
    + destruct (n + 1 =? 1) eqn:E1; [lia|].
      rewrite (IH (Some (col_symbol r, n + 1))); [reflexivity | lia].
    + cbn [Z.eqb Pos.eqb map fst app].
      rewrite (IH (Some (col_symbol r, 1))); [reflexivity | lia].
  - cbn [Z.eqb Pos.eqb map fst app].
    rewrite (IH (Some (col_symbol r, 1))); [reflexivity | lia].
Qed.

Lemma select_latest_first_rows (table : list Row) :
  select_latest table =
  order_by timestamp_desc
    (first_rows None (order_by partition_symbol_timestamp_desc table)).
Proof.
  unfold select_latest, ranked_data.
  rewrite (row_number_one _ None I). reflexivity.
Qed.

Lemma first_rows_incl (l : list Row) (prev : option string) (x : Row) :
  In x (first_rows prev l) -> In x l.
Proof.
  revert prev. induction l as [|r l IH]; intros prev; simpl; [tauto|].
  rewrite in_app_iff. intros [H|H].
  - destruct (match prev with Some s => _ | None => _ end);
      simpl in H; tauto.
  - right. eapply IH, H.
Qed.

(** Every symbol of the list has a row numbered 1, apart from a leading run
    that continues the symbol before the list. *)
Lemma first_rows_cover (l : list Row) (prev : option string) (y : Row) :
  In y l -> prev <> Some (col_symbol y) ->
  In (col_symbol y) (map col_symbol (first_rows prev l)).
Proof.
  revert prev. induction l as [|r l IH]; intros prev Hin Hprev; [destruct Hin|].
  cbn [first_rows]. rewrite map_app, in_app_iff.
  destruct Hin as [->|Hin].
  - left. destruct prev as [s|]; [|left; reflexivity].
    destruct (String.eqb_spec s (col_symbol y)); [congruence|].
    left; reflexivity.
  - destruct (string_dec (col_symbol r) (col_symbol y)) as [E|E].
    + left. rewrite <- E. destruct prev as [s|]; [|left; reflexivity].
      destruct (String.eqb_spec s (col_symbol r)); [congruence|].
      left; reflexivity.
    + right. apply IH; [exact Hin | congruence].
Qed.

Lemma partition_sorted_tail (r : Row) (l : list Row) :
  partition_sorted (r :: l) ->
  partition_sorted l /\ bounded_by (Some (col_symbol r)) l.
Proof.
  intros H. apply StronglySorted_inv in H as [Hs Hr]. split; [exact Hs|].
  intros s [= <-]. eapply Forall_impl; [|exact Hr].
  intros y. unfold partition_symbol_timestamp_desc.
  destruct (String.compare (col_symbol r) (col_symbol y)); congruence.
Qed.

(** In a sorted list no row numbered 1 continues the symbol before it. *)
Lemma first_rows_not_prev (l : list Row) (prev : option string) (x : Row) :
  partition_sorted l -> bounded_by prev l ->
  In x (first_rows prev l) -> prev <> Some (col_symbol x).
Proof.
  revert prev. induction l as [|r l IH]; intros prev Hs Hb; [intros []|].
  destruct (partition_sorted_tail _ _ Hs) as [Hs' Hb'].
  cbn [first_rows]. rewrite in_app_iff. intros [H|H].
  - destruct prev as [s|]; [|discriminate].
    destruct (String.eqb_spec s (col_symbol r)); [destruct H|].
    destruct H as [<-|[]]. congruence.
  - pose proof (IH _ Hs' Hb' H) as Hx.
    destruct prev as [s|]; [|discriminate].
    intros [= ->].
    apply first_rows_incl in H.
    pose proof (Hb _ eq_refl) as Hb0.
    apply Forall_inv in Hb0.
    pose proof (Hb' _ eq_refl) as Hb1.
    rewrite Forall_forall in Hb1. specialize (Hb1 _ H).
    apply Hx. f_equal.
    destruct (String.compare (col_symbol r) (col_symbol x)) eqn:E;
      [apply String.compare_eq_iff, E | | congruence].
    apply string_compare_gt_lt in E. congruence.
Qed.

Lemma first_rows_NoDup (l : list Row) (prev : option string) :
  partition_sorted l -> bounded_by prev l ->
  NoDup (map col_symbol (first_rows prev l)).
Proof.
  revert prev. induction l as [|r l IH]; intros prev Hs Hb; [constructor|].
  destruct (partition_sorted_tail _ _ Hs) as [Hs' Hb'].
  cbn [first_rows].
  destruct (match prev with Some s => _ | None => _ end);
    cbn [app map]; [apply IH; assumption|].
  constructor; [|apply IH; assumption].
  rewrite in_map_iff. intros (x & Hx & Hin).
  apply (first_rows_not_prev _ _ _ Hs' Hb' Hin). congruence.
Qed.

(** In a sorted list a row numbered 1 has the greatest timestamp of its
    symbol. *)
Lemma first_rows_max_timestamp
      (l : list Row) (prev : option string) (x y : Row) :
  partition_sorted l -> bounded_by prev l ->
  In x (first_rows prev l) -> In y l -> col_symbol y = col_symbol x ->
  col_timestamp y <= col_timestamp x.
Proof.
  revert prev. induction l as [|r l IH]; intros prev Hs Hb; [intros []|].
  destruct (partition_sorted_tail _ _ Hs) as [Hs' Hb'].
  cbn [first_rows]. rewrite in_app_iff. intros Hx Hy E.
  assert (Hrx : In x (first_rows (Some (col_symbol r)) l) ->
                col_symbol r <> col_symbol x).
  { intros H Heq. apply (first_rows_not_prev _ _ _ Hs' Hb' H). congruence. }
  destruct Hx as [Hx|Hx].
  - destruct (match prev with Some s => _ | None => _ end); [destruct Hx|].
    destruct Hx as [<-|[]].
    destruct Hy as [->|Hy]; [lia|].
    apply StronglySorted_inv in Hs as [_ Hr].
    rewrite Forall_forall in Hr. specialize (Hr _ Hy).
    unfold partition_symbol_timestamp_desc in Hr.
    rewrite E, string_compare_refl in Hr.
    unfold timestamp_desc in Hr. lia.
  - destruct Hy as [->|Hy]; [exfalso; apply (Hrx Hx); exact E|].
    eapply IH; eassumption.
Qed.

(** ** What the latest-per-symbol statement selects *)

Lemma partition_sorted_order_by (table : list Row) :
  partition_sorted (order_by partition_symbol_timestamp_desc table).
Proof.
  apply order_by_sorted;
    [exact partition_order_total | exact partition_order_trans].
Qed.

Lemma bounded_by_None (l : list Row) : bounded_by None l.
Proof. intros s H. discriminate. Qed.

Lemma select_latest_In (table : list Row) (x : Row) :
  In x (select_latest table) -> In x table.
Proof.
  rewrite select_latest_first_rows, order_by_In. intros H.
  apply first_rows_incl in H. rewrite order_by_In in H. exact H.
Qed.

Lemma select_latest_NoDup (table : list Row) :
  NoDup (map col_symbol (select_latest table)).
Proof.
  rewrite select_latest_first_rows.
  eapply Permutation_NoDup.
  - apply Permutation_map, Permutation_sym, order_by_perm.
  - apply first_rows_NoDup;
      [apply partition_sorted_order_by | apply bounded_by_None].
Qed.

Lemma select_latest_symbols (table : list Row) (s : string) :
  In s (map col_symbol (select_latest table)) <-> In s (map col_symbol table).
Proof.
  split.
  - rewrite !in_map_iff. intros (x & E & H).
    exists x. split; [exact E | apply select_latest_In, H].
  - rewrite in_map_iff. intros (y & <- & H).
    rewrite select_latest_first_rows.
    eapply Permutation_in;
      [apply Permutation_map, Permutation_sym, order_by_perm|].
    apply first_rows_cover; [|discriminate].
    rewrite order_by_In. exact H.
Qed.

Lemma StronglySorted_weaken {A} (R1 R2 : A -> A -> Prop) (l : list A) :
  (forall a b, R1 a b -> R2 a b) ->
  StronglySorted R1 l -> StronglySorted R2 l.
Proof.
  intros HR. induction 1 as [|a l Hs IH Ha]; constructor; [exact IH|].
  eapply Forall_impl; [|exact Ha]. exact (HR a).
Qed.

Lemma order_by_timestamp_desc_sorted (l : list Row) :
  StronglySorted (fun a b => col_timestamp b <= col_timestamp a)
                 (order_by timestamp_desc l).
Proof.
  eapply StronglySorted_weaken;
    [|apply order_by_sorted;
      [exact timestamp_desc_total | exact timestamp_desc_trans]].
  intros a b H. cbv beta in H. unfold timestamp_desc in H. lia.
Qed.


Lemma select_latest_max_timestamp (table : list Row) (x y : Row) :
  In x (select_latest table) -> In y table ->
  col_symbol y = col_symbol x ->
  col_timestamp y <= col_timestamp x.
Proof.
  rewrite select_latest_first_rows, order_by_In. intros Hx Hy E.
  eapply first_rows_max_timestamp;
    [apply partition_sorted_order_by | apply bounded_by_None
    | exact Hx | rewrite order_by_In; exact Hy | exact E].
Qed.

(** ** Running the queries *)

Lemma quiet_visible (s : DatabaseManager) :
  quiet s -> visible s = investment_data (db_file s).
Proof.
  unfold quiet, visible, uncommitted. intros ->. apply app_nil_r.
Qed.

Lemma get_latest_run (env : Medium) (s : DatabaseManager) :
  works env -> quiet s ->
  get_latest_data_per_symbol env s =
    (inl (map dict (select_latest (investment_data (db_file s)))), s).
Proof.
  intros Hw Hq. rewrite <- (quiet_visible s Hq).
  unfold get_latest_data_per_symbol. unfold_sqlite3; unfold_py.
  rewrite Hq, !Hw. reflexivity.
Qed.

(** A failure of the medium anywhere in the read is answered by the empty
    list. *)
Lemma get_latest_failure (env : Medium) (s : DatabaseManager) :
  quiet s ->
  fails env Cursor = true \/ fails env Execute = true \/
  fails env Fetchall = true ->
  get_latest_data_per_symbol env s = (inl [], s).
Proof.
  intros Hq H. unfold quiet in Hq.
  unfold get_latest_data_per_symbol. unfold_sqlite3; unfold_py.
  destruct s as [db c]. simpl in Hq. subst c. simpl.
  destruct (fails env Cursor); [reflexivity|].
  destruct (fails env Execute); [reflexivity|].
  destruct (fails env Fetchall); [reflexivity|].
  destruct H as [H|[H|H]]; discriminate.
Qed.

(** ** Sequences of appends *)

Lemma quiet_after_failure (env : Medium) (s : DatabaseManager) :
  quiet s -> after_failure env s = s.
Proof.
  unfold quiet, after_failure. destruct s as [db c]. simpl.
  intros ->. reflexivity.
Qed.

Lemma appends_table (calls : list Append) (s : DatabaseManager) :
  quiet s ->
  quiet (snd (appends calls s)) /\
  map dict (investment_data (db_file (snd (appends calls s)))) =
    map dict (investment_data (db_file s)) ++
    map observation (fst (appends calls s)).
Proof.
  revert s. induction calls as [|c calls IH]; intros s Hq; simpl.
  - split; [exact Hq | symmetry; apply app_nil_r].
  - destruct (insert_goes_through (call_env c) s (call_price c) (call_atr c))
      eqn:E.
    + rewrite (insert_data_true _ _ _ _ _ E).
      match goal with
      | |- context [appends calls ?s1] =>
          destruct (IH s1 eq_refl) as [IH1 IH2];
          destruct (appends calls s1) as [confirmed s2]
      end.
      simpl in *. split; [exact IH1|].
      rewrite IH2, (quiet_visible s Hq), map_app, <- app_assoc. reflexivity.
    + rewrite (insert_data_false _ _ _ _ _ E), (quiet_after_failure _ _ Hq).
      apply IH, Hq.
Qed.

Lemma StronglySorted_map {A B} (f : A -> B) (R : B -> B -> Prop) (l : list A) :
  StronglySorted (fun a b => R (f a) (f b)) l -> StronglySorted R (map f l).
Proof.
  induction 1 as [|a l Hs IH Ha]; simpl; constructor; [exact IH|].
  rewrite Forall_map. exact Ha.
Qed.

Lemma map_symbol_dict (l : list Row) :
  map data_storage.symbol (map dict l) = map col_symbol l.
Proof. rewrite map_map. reflexivity. Qed.

(** ** Latest per symbol *)



(** C2: the statement orders a partition by timestamp only. On two rows of
    one symbol written within the same second, the row numbered 1 is the
    one with the lower id, not the one with the highest. *)
Theorem latest_tie_selects_lowest_id :
  let s := snd (appends same_second db_manager) in
  investment_data (db_file s) =
    [ {| col_id := 1; col_symbol := "AAPL"; col_price := 150.25;
         col_atr := 2.35; col_timestamp := 1700000000 |};
      {| col_id := 2; col_symbol := "AAPL"; col_price := 151;
         col_atr := 2; col_timestamp := 1700000000 |} ] /\
  map col_id (select_latest (investment_data (db_file s))) = [1] /\
  get_latest_data_per_symbol (healthy 1700000001) s =
    (inl [ {| data_storage.symbol := "AAPL"; data_storage.price := 150.25;
              data_storage.atr := 2.35; timestamp := 1700000000 |} ], s).
Proof. vm_compute. repeat split. Qed.

(** C5: an append followed at once by the read. When the symbol already
    has a row with the same timestamp, the read still shows the older row,
    not the price and ATR just appended. *)
Theorem append_then_latest_within_one_second :
  let s1 := snd (appends (firstn 1 same_second) db_manager) in
  let r := insert_data (healthy 1700000000) "AAPL" 151 2 s1 in
  fst r = inl true /\
  fst (get_latest_data_per_symbol (healthy 1700000000) (snd r)) =
    inl [ {| data_storage.symbol := "AAPL"; data_storage.price := 150.25;
             data_storage.atr := 2.35; timestamp := 1700000000 |} ].
Proof. vm_compute. split; reflexivity. Qed.

(** C4: a failure of the medium during the read is caught inside
    [get_latest_data_per_symbol], which then returns the empty list: the
    caller gets what it gets from a store without data, and [health_check]
    reports a healthy, connected database with no records. *)
Theorem read_failure_returns_empty_list :
  let s := snd (appends same_second db_manager) in
  List.length (investment_data (db_file s)) = 2%nat /\
  get_latest_data_per_symbol (execute_fails 1700000001) s = (inl [], s) /\
  get_latest_data_per_symbol (healthy 1700000001) db_manager =
    (inl [], db_manager) /\
  fst (health_check (execute_fails 1700000001) s) =
    inl {| health_status := "healthy"; health_database := "connected";
           records_count := Some 0; health_error := None |}.
Proof. vm_compute. repeat split. Qed.

(** ** All rows, with a limit *)

Lemma get_all_run (env : Medium) (limit : option Z) (s : DatabaseManager) :
  works env -> quiet s ->
  get_all_data env limit s =
    (match select_all (if truthy limit then limit else None)
                      (investment_data (db_file s)) with
     | inl rows => inl (map dict rows)
     | inr _ => inl []
     end, s).
Proof.
  intros Hw Hq. rewrite <- (quiet_visible s Hq). unfold quiet in Hq.
  unfold get_all_data. unfold_sqlite3; unfold_py.
  destruct s as [db c]. simpl in Hq. subst c. cbn [local_connection].
  rewrite !Hw.
  destruct (select_all _ _); reflexivity.
Qed.

Lemma StronglySorted_app_inv {A} (R : A -> A -> Prop) (l1 l2 : list A) :
  StronglySorted R (l1 ++ l2) ->
  StronglySorted R l1 /\ StronglySorted R l2 /\
  (forall a b, In a l1 -> In b l2 -> R a b).
Proof.
  induction l1 as [|x l1 IH]; simpl; intros H.
  - split; [constructor|]. split; [exact H|]. intros a b [].
  - apply StronglySorted_inv in H as [Hs Hx].
    destruct (IH Hs) as (H1 & H2 & H3).
    rewrite Forall_app in Hx. destruct Hx as [Hx1 Hx2].
    split; [constructor; assumption|]. split; [exact H2|].
    intros a b [<-|Ha] Hb.
    + rewrite Forall_forall in Hx2. apply Hx2, Hb.
    + apply H3; assumption.
Qed.

(** The first [k] rows of the listing, and the rows behind them. *)
Lemma listing_split (table : list Row) (k : nat) :
  let listing := order_by timestamp_desc table in
  StronglySorted (fun a b => timestamp b <= timestamp a)
                 (map dict (firstn k listing)) /\
  Permutation (map dict (firstn k listing) ++ map dict (skipn k listing))
              (map dict table) /\
  (forall a b, In a (map dict (firstn k listing)) ->
               In b (map dict (skipn k listing)) ->
               timestamp b <= timestamp a) /\
  List.length (map dict (firstn k listing)) =
    Nat.min k (List.length table).
Proof.
  intros listing.
  pose proof (order_by_timestamp_desc_sorted table) as Hs.
  fold listing in Hs. rewrite <- (firstn_skipn k listing) in Hs.
  apply StronglySorted_app_inv in Hs as (H1 & _ & H3).
  split; [apply StronglySorted_map, H1|].
  split.
  - rewrite <- map_app, firstn_skipn.
    apply Permutation_map, order_by_perm.
  - split.
    + intros a b Ha Hb. rewrite in_map_iff in Ha, Hb.
      destruct Ha as (x & <- & Hx), Hb as (y & <- & Hy).
      apply (H3 _ _ Hx Hy).
    + rewrite length_map, length_firstn. f_equal.
      apply Permutation_length, order_by_perm.
Qed.

(** C9, the claim as stated fails: with three rows stored, a positive limit
    of 2^63 returns no row instead of all three, and so does the limit
    -2^63-1, which is below zero. *)
Lemma limit_outside_int64_returns_no_row :
  let calls := same_second ++
    [ {| call_env := healthy 1700000060; call_symbol := "MSFT";
         call_price := 330; call_atr := 4.5 |} ] in
  let s := snd (appends calls db_manager) in
  List.length (investment_data (db_file s)) = 3%nat /\
  get_all_data (healthy 1700000100) (Some (2 ^ 63)) s = (inl [], s) /\
  get_all_data (healthy 1700000100) (Some (- 2 ^ 63 - 1)) s = (inl [], s).
Proof. vm_compute. repeat split. Qed.

(** C9, amended: for a limit that is absent or a signed 64-bit integer, on
    a working medium, [get_all_data] returns the rows by timestamp
    descending; with the limit absent or [<= 0] these are all rows, with a
    positive limit they are the first [limit] rows of that listing (all of
    them when there are fewer), none older than a row left out. *)
Theorem all_data_limited
        (env : Medium) (limit : option Z) (s : DatabaseManager) :
  works env -> quiet s ->
  (forall n, limit = Some n -> int64_min <= n <= int64_max) ->
  exists result rest : list Dict,
    get_all_data env limit s = (inl result, s) /\
    StronglySorted (fun a b => timestamp b <= timestamp a) result /\
    Permutation (result ++ rest) (map dict (investment_data (db_file s))) /\
    (forall a b, In a result -> In b rest -> timestamp b <= timestamp a) /\
    match limit with
    | Some n =>
        if 0 <? n
        then List.length result =
             Nat.min (Z.to_nat n) (List.length (investment_data (db_file s)))
        else rest = []
    | None => rest = []
    end.
Proof.
  intros Hw Hq Hrange. rewrite (get_all_run env limit s Hw Hq).
  set (table := investment_data (db_file s)).
  assert (Hall : exists result rest : list Dict,
             (inl (map dict (order_by timestamp_desc table)) : list Dict + exn)
               = inl result /\
             StronglySorted (fun a b => timestamp b <= timestamp a) result /\
             Permutation (result ++ rest) (map dict table) /\
             (forall a b, In a result -> In b rest ->
                          timestamp b <= timestamp a) /\
             rest = []).
  { exists (map dict (order_by timestamp_desc table)), [].
    split; [reflexivity|].
    split; [apply StronglySorted_map, order_by_timestamp_desc_sorted|].
    split; [rewrite app_nil_r; apply Permutation_map, order_by_perm|].
    split; [intros a b _ []|reflexivity]. }
  destruct limit as [n|]; cbn [truthy].
  - specialize (Hrange n eq_refl).
    destruct (Z.eqb_spec n 0) as [->|Hn0]; cbn [negb select_all].
    + destruct Hall as (result & rest & E & H1 & H2 & H3 & H4).
      exists result, rest. rewrite E. simpl. auto.
    + unfold limit_clause.
      destruct (n <? int64_min) eqn:E1; [lia|].
      destruct (int64_max <? n) eqn:E2; [lia|]. cbn [orb].
      destruct (n <? 0) eqn:E3.
      * destruct Hall as (result & rest & E & H1 & H2 & H3 & H4).
        exists result, rest. rewrite E.
        destruct (0 <? n) eqn:E4; [lia|]. auto.
      * destruct (listing_split table (Z.to_nat n)) as (H1 & H2 & H3 & H4).
        eexists. eexists. split; [reflexivity|].
        split; [exact H1|]. split; [exact H2|]. split; [exact H3|].
        destruct (0 <? n) eqn:E4; [exact H4|lia].
  - destruct Hall as (result & rest & E & H1 & H2 & H3 & H4).
    exists result, rest. cbn [select_all]. rewrite E. auto.
Qed.

Lemma all_data_limited_witness :
  let s := snd (appends same_second db_manager) in
  exists result rest : list Dict,
    get_all_data (healthy 1700000100) (Some 1) s = (inl result, s) /\
    StronglySorted (fun a b => timestamp b <= timestamp a) result /\
    Permutation (result ++ rest) (map dict (investment_data (db_file s))) /\
    (forall a b, In a result -> In b rest -> timestamp b <= timestamp a) /\
    List.length result = 1%nat.
Proof.
  intros s.
  destruct (all_data_limited (healthy 1700000100) (Some 1) s)
    as (result & rest & H1 & H2 & H3 & H4 & H5).
  - intros c. reflexivity.
  - reflexivity.
  - intros n [= <-]. unfold int64_min, int64_max. lia.
  - exists result, rest. repeat split; assumption.
Defined.

(** ** Further facts about the reads *)

(** The read never raises, whatever the medium does. *)
Lemma get_latest_never_raises (env : Medium) (s : DatabaseManager) :
  exists (result : list Dict) (s' : DatabaseManager),
    get_latest_data_per_symbol env s = (inl result, s').
Proof.
  unfold get_latest_data_per_symbol. unfold_sqlite3; unfold_py.
  destruct s as [db [c|]]; cbn [local_connection];
    destruct (fails env Connect), (fails env Cursor), (fails env Execute),
      (fails env Fetchall); eexists; eexists; reflexivity.
Qed.

(** X12: the [except] branch of [health_check] is never taken: the answer
    is "healthy" and "connected" on every medium and in every state. *)
Lemma health_check_always_healthy (env : Medium) (s : DatabaseManager) :
  exists (h : Health) (s' : DatabaseManager),
    health_check env s = (inl h, s') /\
    health_status h = "healthy" /\ health_database h = "connected".
Proof.
  destruct (get_latest_never_raises env s) as (result & s' & H).
  unfold health_check. unfold_py. rewrite H.
  eexists. eexists. split; [reflexivity|]. split; reflexivity.
Qed.

(** When the clock has moved past every row the symbol has, the read that
    follows an append shows the appended price and ATR for the symbol, and
    nothing else for it. *)
Lemma latest_reflects_later_append
      (env env' : Medium) (sym : string) (p a : float) (s : DatabaseManager) :
  quiet s -> works env' ->
  insert_goes_through env s p a = true ->
  (forall r, In r (investment_data (db_file s)) -> col_symbol r = sym ->
             col_timestamp r < current_timestamp env) ->
  exists (s' : DatabaseManager) (result : list Dict),
    insert_data env sym p a s = (inl true, s') /\
    get_latest_data_per_symbol env' s' = (inl result, s') /\
    In {| data_storage.symbol := sym; data_storage.price := stored_real p;
          data_storage.atr := stored_real a; timestamp := current_timestamp env |}
       result /\
    (forall d, In d result -> data_storage.symbol d = sym ->
               d = {| data_storage.symbol := sym; data_storage.price := stored_real p;
                      data_storage.atr := stored_real a;
                      timestamp := current_timestamp env |}).
Proof.
  intros Hq Hw Hok Hlater.
  rewrite (insert_data_true _ _ _ _ _ Hok), (quiet_visible s Hq).
  eexists. eexists. split; [reflexivity|].
  split; [apply get_latest_run; [exact Hw | reflexivity]|].
  cbn [db_file investment_data].
  set (row := new_row env s sym p a).
  set (table := investment_data (db_file s) ++ [row]).
  assert (Hrow : In row table) by (apply in_or_app; right; left; reflexivity).
  assert (Hsel : forall x, In x (select_latest table) -> col_symbol x = sym ->
                           x = row).
  { intros x Hx Hs.
    pose proof (select_latest_max_timestamp table x row Hx Hrow
                  (eq_sym Hs)) as Hmax.
    apply select_latest_In in Hx. apply in_app_or in Hx.
    destruct Hx as [Hx|[<-|[]]]; [|reflexivity].
    specialize (Hlater x Hx Hs). simpl in Hmax. lia. }
  split.
  - assert (Hin : In sym (map col_symbol (select_latest table))).
    { apply select_latest_symbols.
      apply in_map_iff. exists row. split; [reflexivity | exact Hrow]. }
    apply in_map_iff in Hin. destruct Hin as (x & Hs & Hx).
    rewrite (Hsel x Hx Hs) in Hx.
    apply in_map_iff. exists row. split; [reflexivity | exact Hx].
  - intros d Hd Hs. apply in_map_iff in Hd. destruct Hd as (x & <- & Hx).
    rewrite (Hsel x Hx Hs). reflexivity.
Qed.

(** ** Ties: ORDER BY keeps the rowid order *)

Section Stability.

Variable precedes : Row -> Row -> bool.

Hypothesis precedes_total :
  forall a b, precedes a b = true \/ precedes b a = true.

Hypothesis precedes_trans :
  forall a b c, precedes a b = true -> precedes b c = true ->
                precedes a c = true.

Lemma insert_row_stable (x : Row) (l : list Row) :
  Forall (fun w => col_id x < col_id w) l ->
  StronglySorted (stably_before precedes) l ->
  StronglySorted (stably_before precedes) (insert_row precedes x l).
Proof.
  intros Hx Hs. induction Hs as [|y l Hs IH Hy]; simpl.
  - constructor; constructor.
  - pose proof (Forall_inv Hx) as Hxy.
    pose proof (Forall_inv_tail Hx) as Hxl.
    destruct (precedes x y) eqn:E.
    + constructor; [constructor; assumption|].
      constructor; [split; [exact E | intros _; exact Hxy]|].
      rewrite Forall_forall in Hy, Hxl |- *. intros w Hw.
      destruct (Hy w Hw) as [Hyw _].
      split; [exact (precedes_trans _ _ _ E Hyw) | intros _; apply Hxl, Hw].
    + constructor; [apply IH, Hxl|].
      apply (Permutation_Forall
               (Permutation_sym (insert_row_perm precedes x l))).
      constructor; [|exact Hy].
      split; [|congruence].
      destruct (precedes_total x y) as [H|H]; [congruence | exact H].
Qed.

Lemma order_by_stable (l : list Row) :
  ids_increasing l -> StronglySorted (stably_before precedes) (order_by precedes l).
Proof.
  induction 1 as [|x l Hs IH Hx]; simpl; [constructor|].
  apply insert_row_stable; [|exact IH].
  apply (Permutation_Forall (Permutation_sym (order_by_perm precedes l))).
  exact Hx.
Qed.

End Stability.

(** Of the rows of a symbol that share the greatest timestamp, the row
    numbered 1 is the one with the lowest id. *)
Lemma first_rows_lowest_id
      (l : list Row) (prev : option string) (x y : Row) :
  StronglySorted (stably_before partition_symbol_timestamp_desc) l ->
  bounded_by prev l ->
  In x (first_rows prev l) -> In y l ->
  col_symbol y = col_symbol x -> col_timestamp y = col_timestamp x ->
  col_id x <= col_id y.
Proof.
  revert prev. induction l as [|r l IH]; intros prev Hs Hb; [intros []|].
  assert (Hp : partition_sorted (r :: l)).
  { eapply StronglySorted_weaken; [|exact Hs]. intros a b [H _]. exact H. }
  destruct (partition_sorted_tail _ _ Hp) as [Hp' Hb'].
  cbn [first_rows]. rewrite in_app_iff. intros Hx Hy E Et.
  apply StronglySorted_inv in Hs as [Hs' Hr].
  destruct Hx as [Hx|Hx].
  - destruct (match prev with Some s => _ | None => _ end); [destruct Hx|].
    destruct Hx as [<-|[]].
    destruct Hy as [->|Hy]; [lia|].
    rewrite Forall_forall in Hr. destruct (Hr _ Hy) as [_ Hid].
    apply Z.lt_le_incl, Hid.
    unfold partition_symbol_timestamp_desc, timestamp_desc.
    rewrite E, string_compare_refl. lia.
  - destruct Hy as [->|Hy].
    + exfalso. apply (first_rows_not_prev _ _ _ Hp' Hb' Hx). congruence.
    + eapply IH; eassumption.
Qed.

Lemma select_latest_lowest_id (table : list Row) (x y : Row) :
  ids_increasing table ->
  In x (select_latest table) -> In y table ->
  col_symbol y = col_symbol x -> col_timestamp y = col_timestamp x ->
  col_id x <= col_id y.
Proof.
  intros Hid. rewrite select_latest_first_rows, order_by_In. intros Hx Hy.
  eapply first_rows_lowest_id;
    [apply order_by_stable;
       [exact partition_order_total | exact partition_order_trans | exact Hid]
    | apply bounded_by_None | exact Hx | rewrite order_by_In; exact Hy].
Qed.

Lemma ids_increasing_snoc (l : list Row) (r : Row) :
  ids_increasing l -> Forall (fun x => col_id x < col_id r) l ->
  ids_increasing (l ++ [r]).
Proof.
  induction 1 as [|a l Hs IH Ha]; intros Hr; simpl.
  - constructor; constructor.
  - constructor; [apply IH, (Forall_inv_tail Hr)|].
    rewrite Forall_app. split; [exact Ha|].
    constructor; [exact (Forall_inv Hr) | constructor].
Qed.

Lemma appends_ids (calls : list Append) (s : DatabaseManager) :
  quiet s -> ids_below_sequence s ->
  ids_below_sequence (snd (appends calls s)).
Proof.
  revert s. induction calls as [|c calls IH]; intros s Hq Hi; [exact Hi|].
  simpl.
  destruct (insert_goes_through (call_env c) s (call_price c) (call_atr c))
    eqn:E.
  - rewrite (insert_data_true _ _ _ _ _ E).
    match goal with
    | |- context [appends calls ?s1] =>
        assert (H1 : ids_below_sequence s1);
        [|specialize (IH s1 eq_refl H1);
          destruct (appends calls s1) as [confirmed s2]; exact IH]
    end.
    destruct Hi as [Hinc Hseq].
    unfold ids_below_sequence, new_row. cbn [db_file investment_data sqlite_sequence].
    rewrite (quiet_visible s Hq).
    unfold quiet in Hq. unfold uncommitted. rewrite Hq. cbn [pending List.length].
    split.
    + apply ids_increasing_snoc; [exact Hinc|].
      eapply Forall_impl; [|exact Hseq]. intros r Hr. simpl in *. lia.
    + rewrite Forall_app. split.
      * eapply Forall_impl; [|exact Hseq]. intros r Hr. simpl in *. lia.
      * constructor; [simpl; lia | constructor].
  - rewrite (insert_data_false _ _ _ _ _ E), (quiet_after_failure _ _ Hq).
    apply IH; assumption.
Qed.

(** X10: what the read does on a tie, in every state the appends can reach:
    the row it shows for a symbol has the greatest timestamp of the symbol,
    and the lowest id among the rows with that timestamp. *)
Lemma latest_is_earliest_of_latest_second
      (calls : list Append) (x y : Row) :
  let table := investment_data (db_file (snd (appends calls db_manager))) in
  In x (select_latest table) -> In y table ->
  col_symbol y = col_symbol x ->
  col_timestamp y <= col_timestamp x /\
  (col_timestamp y = col_timestamp x -> col_id x <= col_id y).
Proof.
  intros table Hx Hy E. split.
  - eapply select_latest_max_timestamp; eassumption.
  - intros Et. eapply select_latest_lowest_id; try eassumption.
    apply (appends_ids calls db_manager eq_refl).
    split; constructor.
Qed.

(** * Further properties of the code *)

(** ** The context manager and the constructor *)

(** X1: whenever [get_connection] raises, whatever the body of the [with]
    is, the connection is left without uncommitted rows: either the
    connection could not be opened, and then the body has not run and the
    manager is as before, or the body raised this very exception and its
    transaction has been rolled back. *)
Theorem get_connection_raises_rolled_back
        {A : Type} (env : Medium) (body : DB A)
        (s s' : DatabaseManager) (e : exn) :
  get_connection env body s = (inr e, s') ->
  (local_connection s = None /\ fails env Connect = true /\ s' = s) \/
  (exists s1 s2,
      db_file s1 = db_file s /\ uncommitted s1 = uncommitted s /\
      body s1 = (inr e, s2) /\
      db_file s' = db_file s2 /\ uncommitted s' = []).
Proof.
  unfold get_connection. unfold_sqlite3; unfold_py.
  destruct s as [db [c|]]; cbn [local_connection].
  - intros H. right.
    exists {| db_file := db; local_connection := Some c |}.
    destruct (body _) as [[a|e'] s2] eqn:Hb; [discriminate|].
    injection H as <- <-. exists s2.
    repeat split. unfold uncommitted. simpl.
    destruct (local_connection s2); reflexivity.
  - destruct (fails env Connect) eqn:Ec.
    + intros H. injection H as <- <-. left. auto.
    + intros H. right.
      exists {| db_file := db; local_connection := Some {| pending := [] |} |}.
      destruct (body _) as [[a|e'] s2] eqn:Hb; [discriminate|].
      injection H as <- <-. exists s2.
      repeat split. unfold uncommitted. simpl.
      destruct (local_connection s2); reflexivity.
Qed.

Lemma get_connection_raises_rolled_back_witness :
  exists s1 s2,
    db_file s1 = db_file db_manager /\
    uncommitted s1 = uncommitted db_manager /\
    (cursor (commit_fails 1700000000) ;;
     execute_insert (commit_fails 1700000000) "AAPL" 150.25 2.35 ;;
     commit (commit_fails 1700000000)) s1 =
      (inr (OperationalError "database is locked"), s2) /\
    uncommitted s2 <> [] /\
    db_file db_manager = db_file s2.
Proof.
  destruct (get_connection_raises_rolled_back
              (commit_fails 1700000000)
              (cursor (commit_fails 1700000000) ;;
               execute_insert (commit_fails 1700000000) "AAPL" 150.25 2.35 ;;
               commit (commit_fails 1700000000))
              db_manager db_manager
              (OperationalError "database is locked") eq_refl)
    as [(H & _)|(s1 & s2 & H1 & H2 & H3 & H4 & _)].
  - discriminate H.
  - exists s1, s2. repeat split; try assumption.
    destruct s1 as [db1 c1]. simpl in H1. unfold uncommitted in H2.
    simpl in H2. subst db1.
    destruct c1 as [[p1]|]; simpl in H2; [subst p1|];
      vm_compute in H3; injection H3 as <-; discriminate.
Defined.

(** X2: the constructor has no [try]: when one of its calls into
    [sqlite3] fails it raises, and otherwise it leaves a manager with an
    open connection, no uncommitted rows and the rows the file already
    held. In both cases the file's rows are untouched. *)
Theorem constructor_keeps_rows_or_raises (env : Medium) (file : Database) :
  (init_goes_through env = true ->
   __init__ env file =
     (inl tt, {| db_file := file;
                 local_connection := Some {| pending := [] |} |})) /\
  (init_goes_through env = false ->
   exists e s, __init__ env file = (inr e, s) /\ db_file s = file).
Proof.
  unfold init_goes_through, __init__, _init_db, execute_create.
  unfold_sqlite3; unfold_py. destruct file as [rows seq].
  cbn [local_connection db_file].
  destruct (fails env Connect), (fails env Cursor), (fails env Execute),
    (fails env Commit); cbn; split; intros H; try discriminate H;
    rewrite ?app_nil_r, ?Z.add_0_r;
    try reflexivity; eexists; eexists; split; reflexivity.
Qed.

Lemma constructor_keeps_rows_or_raises_witness :
  __init__ (healthy 1700000000)
           {| investment_data := []; sqlite_sequence := 0 |} =
    (inl tt, db_manager) /\
  exists e s,
    __init__ (execute_fails 1700000000)
             {| investment_data := []; sqlite_sequence := 0 |} = (inr e, s) /\
    db_file s = {| investment_data := []; sqlite_sequence := 0 |}.
Proof.
  split.
  - apply (constructor_keeps_rows_or_raises (healthy 1700000000)).
    reflexivity.
  - apply (constructor_keeps_rows_or_raises (execute_fails 1700000000)).
    reflexivity.
Defined.

(** ** The table as a log *)

(** X3: the table is a log of the confirmed appends. Whatever rows the
    table held stay in place, unchanged; behind them stands one row for
    each call the store confirmed, in the order of the calls, with the
    symbol and the clock reading of the call and a price and an ATR equal
    ([==]) to those given; a call that failed leaves no row. *)
Theorem table_is_log_of_confirmed_appends
        (calls : list Append) (s : DatabaseManager) :
  quiet s ->
  exists added : list Row,
    investment_data (db_file (snd (appends calls s))) =
      investment_data (db_file s) ++ added /\
    Forall2 holds_call added (fst (appends calls s)).
Proof.
  revert s. induction calls as [|c calls IH]; intros s Hq; simpl.
  - exists []. split; [symmetry; apply app_nil_r | constructor].
  - destruct (insert_goes_through (call_env c) s (call_price c) (call_atr c))
      eqn:E.
    + rewrite (insert_data_true _ _ _ _ _ E).
      destruct (insert_goes_through_not_nan _ _ _ _ E) as [Hp Ha].
      match goal with
      | |- context [appends calls ?s1] =>
          destruct (IH s1 eq_refl) as (added & H1 & H2);
          destruct (appends calls s1) as [confirmed s2]
      end.
      cbn [fst snd db_file investment_data] in *.
      exists (new_row (call_env c) s (call_symbol c) (call_price c)
                      (call_atr c) :: added).
      split.
      * rewrite H1, (quiet_visible s Hq), <- app_assoc. reflexivity.
      * constructor; [|exact H2].
        split; [reflexivity|].
        split; [apply stored_real_eqb, Hp|].
        split; [apply stored_real_eqb, Ha | reflexivity].
    + rewrite (insert_data_false _ _ _ _ _ E), (quiet_after_failure _ _ Hq).
      apply IH, Hq.
Qed.

Lemma table_is_log_of_confirmed_appends_witness :
  exists added : list Row,
    investment_data (db_file (snd (appends same_second db_manager))) =
      investment_data (db_file db_manager) ++ added /\
    Forall2 holds_call added (fst (appends same_second db_manager)).
Proof.
  apply (table_is_log_of_confirmed_appends same_second db_manager).
  reflexivity.
Defined.

Lemma appends_ids_consecutive (calls : list Append) (s : DatabaseManager) :
  quiet s -> ids_consecutive s -> ids_consecutive (snd (appends calls s)).
Proof.
  revert s. induction calls as [|c calls IH]; intros s Hq Hi; [exact Hi|].
  simpl.
  destruct (insert_goes_through (call_env c) s (call_price c) (call_atr c))
    eqn:E.
  - rewrite (insert_data_true _ _ _ _ _ E).
    match goal with
    | |- context [appends calls ?s1] =>
        assert (H1 : ids_consecutive s1);
        [|specialize (IH s1 eq_refl H1);
          destruct (appends calls s1) as [confirmed s2]; exact IH]
    end.
    destruct Hi as [Hseq Hids].
    unfold ids_consecutive, new_row.
    cbn [db_file investment_data sqlite_sequence].
    rewrite (quiet_visible s Hq).
    unfold quiet in Hq. unfold uncommitted. rewrite Hq.
    cbn [pending List.length].
    rewrite List.length_app. cbn [List.length].
    rewrite Nat.add_1_r, seq_S, !map_app, <- Hids, Hseq.
    cbn [map col_id]. split; [lia|].
    f_equal. f_equal. lia.
  - rewrite (insert_data_false _ _ _ _ _ E), (quiet_after_failure _ _ Hq).
    apply IH; assumption.
Qed.

Lemma appends_count (calls : list Append) (s : DatabaseManager) :
  quiet s ->
  List.length (investment_data (db_file (snd (appends calls s)))) =
    (List.length (investment_data (db_file s)) +
     List.length (fst (appends calls s)))%nat.
Proof.
  intros Hq. destruct (appends_table calls s Hq) as [_ H].
  apply (f_equal (@List.length Dict)) in H.
  rewrite length_app, !length_map in H. exact H.
Qed.

(** X4: on the fresh manager the ids are handed out without gaps: after
    any sequence of calls, of which [k] were confirmed, the rows carry the
    ids 1, 2, ..., k in the order they were written. A call that fails
    uses up no id. *)
Theorem ids_count_the_confirmed_appends (calls : list Append) :
  map col_id (investment_data (db_file (snd (appends calls db_manager)))) =
    map Z.of_nat (seq 1 (List.length (fst (appends calls db_manager)))).
Proof.
  destruct (appends_ids_consecutive calls db_manager eq_refl) as [_ H].
  { split; reflexivity. }
  rewrite H, (appends_count calls db_manager eq_refl). reflexivity.
Qed.

(** ** The reads *)

Lemma get_latest_quiet (env : Medium) (s : DatabaseManager) :
  quiet s ->
  get_latest_data_per_symbol env s =
    (inl (if read_fails env then []
          else map dict (select_latest (investment_data (db_file s)))), s).
Proof.
  intros Hq. rewrite <- (quiet_visible s Hq). unfold quiet in Hq.
  unfold get_latest_data_per_symbol, read_fails. unfold_sqlite3; unfold_py.
  destruct s as [db c]. simpl in Hq. subst c. cbn [local_connection].
  destruct (fails env Cursor), (fails env Execute), (fails env Fetchall);
    reflexivity.
Qed.

Lemma get_all_quiet (env : Medium) (limit : option Z) (s : DatabaseManager) :
  quiet s ->
  get_all_data env limit s =
    (inl (if read_fails env then []
          else match select_all (if truthy limit then limit else None)
                                (investment_data (db_file s)) with
               | inl rows => map dict rows
               | inr _ => []
               end), s).
Proof.
  intros Hq. rewrite <- (quiet_visible s Hq). unfold quiet in Hq.
  unfold get_all_data, read_fails. unfold_sqlite3; unfold_py.
  destruct s as [db c]. simpl in Hq. subst c. cbn [local_connection].
  destruct (fails env Cursor), (fails env Execute); cbn; try reflexivity;
    destruct (select_all _ _); destruct (fails env Fetchall); reflexivity.
Qed.

(** X5: neither read writes. Whatever the medium does, whatever the limit
    and whatever state the manager is in, the database file after
    [get_latest_data_per_symbol] and after [get_all_data] is the file
    before. *)
Theorem reads_leave_the_file_alone
        (env : Medium) (limit : option Z) (s : DatabaseManager) :
  db_file (snd (get_latest_data_per_symbol env s)) = db_file s /\
  db_file (snd (get_all_data env limit s)) = db_file s.
Proof.
  unfold get_latest_data_per_symbol, get_all_data.
  unfold_sqlite3; unfold_py. split.
  - destruct s as [db [c|]]; cbn [local_connection];
      destruct (fails env Connect), (fails env Cursor), (fails env Execute),
        (fails env Fetchall); reflexivity.
  - destruct s as [db [c|]]; cbn [local_connection];
      destruct (fails env Connect), (fails env Cursor), (fails env Execute);
      cbn; try reflexivity;
      destruct (select_all _ _); destruct (fails env Fetchall); reflexivity.
Qed.

(** X6: [get_all_data] never raises: on every medium, for every limit and
    in every state of the manager it returns a list. *)
Theorem get_all_data_never_raises
        (env : Medium) (limit : option Z) (s : DatabaseManager) :
  exists (result : list Dict) (s' : DatabaseManager),
    get_all_data env limit s = (inl result, s').
Proof.
  unfold get_all_data. unfold_sqlite3; unfold_py.
  destruct s as [db [c|]]; cbn [local_connection];
    destruct (fails env Connect), (fails env Cursor), (fails env Execute);
    cbn; try (eexists; eexists; reflexivity);
    destruct (select_all _ _); destruct (fails env Fetchall);
    eexists; eexists; reflexivity.
Qed.

(** X7: what [get_all_data] returns when it cannot run its statement: the
    empty list, with the manager unchanged, both when a call of the read
    fails on the medium and when the limit is outside the signed 64-bit
    range. *)
Theorem get_all_data_empty_on_failure
        (env : Medium) (limit : option Z) (s : DatabaseManager) :
  quiet s ->
  read_fails env = true \/
  (exists n, limit = Some n /\ (n < int64_min \/ int64_max < n)) ->
  get_all_data env limit s = (inl [], s).
Proof.
  intros Hq H. rewrite (get_all_quiet env limit s Hq).
  destruct (read_fails env); [reflexivity|].
  destruct H as [H|(n & -> & Hn)]; [discriminate|].
  cbn [truthy].
  destruct (Z.eqb_spec n 0) as [->|_];
    [unfold int64_min, int64_max in Hn; lia|].
  cbn [negb select_all]. unfold limit_clause.
  destruct (n <? int64_min) eqn:E1; [reflexivity|].
  destruct (int64_max <? n) eqn:E2; [reflexivity|]. lia.
Qed.

Lemma get_all_data_empty_on_failure_witness :
  get_all_data (execute_fails 1700000100) (Some 10)
               (snd (appends same_second db_manager)) =
    (inl [], snd (appends same_second db_manager)) /\
  get_all_data (healthy 1700000100) (Some (2 ^ 64))
               (snd (appends same_second db_manager)) =
    (inl [], snd (appends same_second db_manager)).
Proof.
  split.
  - apply (get_all_data_empty_on_failure (execute_fails 1700000100));
      [reflexivity | left; reflexivity].
  - apply (get_all_data_empty_on_failure (healthy 1700000100));
      [reflexivity|].
    right. exists (2 ^ 64). split; [reflexivity|].
    right. unfold int64_max. lia.
Defined.

(** X8: a positive limit cuts the unlimited listing and nothing else: for
    a limit [n] between 1 and 2^63-1, [get_all_data(n)] is the first [n]
    entries of [get_all_data()]. *)
Theorem limited_listing_is_a_prefix
        (env : Medium) (n : Z) (s : DatabaseManager) :
  works env -> quiet s -> 0 < n <= int64_max ->
  exists listing : list Dict,
    get_all_data env None s = (inl listing, s) /\
    get_all_data env (Some n) s = (inl (firstn (Z.to_nat n) listing), s).
Proof.
  intros Hw Hq Hn.
  rewrite !(get_all_run env _ s Hw Hq). cbn [truthy].
  destruct (Z.eqb_spec n 0) as [->|_]; [lia|].
  cbn [negb select_all]. unfold limit_clause.
  destruct (n <? int64_min) eqn:E1; [unfold int64_min in E1; lia|].
  destruct (int64_max <? n) eqn:E2; [lia|].
  destruct (n <? 0) eqn:E3; [lia|]. cbn [orb].
  eexists. split; [reflexivity|].
  rewrite firstn_map. reflexivity.
Qed.

Lemma limited_listing_is_a_prefix_witness :
  exists listing : list Dict,
    get_all_data (healthy 1700000100) None
                 (snd (appends same_second db_manager)) =
      (inl listing, snd (appends same_second db_manager)) /\
    get_all_data (healthy 1700000100) (Some 1)
                 (snd (appends same_second db_manager)) =
      (inl (firstn 1 listing), snd (appends same_second db_manager)).
Proof.
  apply (limited_listing_is_a_prefix (healthy 1700000100) 1).
  - intros c. reflexivity.
  - reflexivity.
  - unfold int64_max. lia.
Defined.

(** X9: the two reads agree. On a working medium every record of
    [get_latest_data_per_symbol] is one of the records of [get_all_data()],
    and no record of [get_all_data()] with the same symbol has a later
    timestamp. *)
Theorem latest_records_are_the_newest_of_all
        (env : Medium) (s : DatabaseManager) :
  works env -> quiet s ->
  exists latest listing : list Dict,
    get_latest_data_per_symbol env s = (inl latest, s) /\
    get_all_data env None s = (inl listing, s) /\
    (forall d, In d latest -> In d listing) /\
    (forall d d', In d latest -> In d' listing ->
                  data_storage.symbol d' = data_storage.symbol d ->
                  timestamp d' <= timestamp d).
Proof.
  intros Hw Hq.
  rewrite (get_latest_run env s Hw Hq), (get_all_run env None s Hw Hq).
  cbn [truthy select_all].
  eexists. eexists. split; [reflexivity|]. split; [reflexivity|].
  split.
  - intros d Hd. apply in_map_iff in Hd. destruct Hd as (x & <- & Hx).
    apply in_map, order_by_In, select_latest_In, Hx.
  - intros d d' Hd Hd' E.
    apply in_map_iff in Hd, Hd'.
    destruct Hd as (x & <- & Hx), Hd' as (y & <- & Hy).
    rewrite order_by_In in Hy.
    apply (select_latest_max_timestamp _ x y Hx Hy). exact E.
Qed.

Lemma latest_records_are_the_newest_of_all_witness :
  exists latest listing : list Dict,
    get_latest_data_per_symbol (healthy 1700000100)
      (snd (appends same_second db_manager)) =
      (inl latest, snd (appends same_second db_manager)) /\
    get_all_data (healthy 1700000100) None
      (snd (appends same_second db_manager)) =
      (inl listing, snd (appends same_second db_manager)) /\
    (forall d, In d latest -> In d listing) /\
    (forall d d', In d latest -> In d' listing ->
                  data_storage.symbol d' = data_storage.symbol d ->
                  timestamp d' <= timestamp d).
Proof.
  apply (latest_records_are_the_newest_of_all (healthy 1700000100)).
  - intros c. reflexivity.
  - reflexivity.
Defined.

(** ** Which row is the latest *)

Lemma latest_is_earliest_of_latest_second_witness :
  let table :=
    investment_data (db_file (snd (appends same_second db_manager))) in
  let x := {| col_id := 1; col_symbol := "AAPL"; col_price := 150.25;
              col_atr := 2.35; col_timestamp := 1700000000 |} in
  let y := {| col_id := 2; col_symbol := "AAPL"; col_price := 151;
              col_atr := 2; col_timestamp := 1700000000 |} in
  In x (select_latest table) /\ In y table /\
  col_timestamp y <= col_timestamp x /\
  (col_timestamp y = col_timestamp x -> col_id x <= col_id y).
Proof.
  intros table x y.
  assert (Hx : In x (select_latest table)) by (left; reflexivity).
  assert (Hy : In y table) by (right; left; reflexivity).
  split; [exact Hx|]. split; [exact Hy|].
  exact (latest_is_earliest_of_latest_second same_second x y Hx Hy eq_refl).
Defined.

(** X11: an append made when the clock has moved past every row of its
    symbol is what the next read shows for the symbol: exactly one record
    of the result has the symbol, it carries the clock reading of the
    append, and its price and ATR are equal ([==]) to those appended. *)
Theorem later_append_is_shown
        (env env' : Medium) (sym : string) (p a : float) (s : DatabaseManager) :
  quiet s -> works env' ->
  fst (insert_data env sym p a s) = inl true ->
  (forall r, In r (investment_data (db_file s)) -> col_symbol r = sym ->
             col_timestamp r < current_timestamp env) ->
  exists (result : list Dict) (d : Dict),
    fst (get_latest_data_per_symbol env'
           (snd (insert_data env sym p a s))) = inl result /\
    In d result /\
    data_storage.symbol d = sym /\
    timestamp d = current_timestamp env /\
    (data_storage.price d =? p)%float = true /\
    (data_storage.atr d =? a)%float = true /\
    (forall d', In d' result -> data_storage.symbol d' = sym -> d' = d).
Proof.
  intros Hq Hw Hok Hlater.
  rewrite insert_data_answer in Hok. injection Hok as Hok.
  destruct (insert_goes_through_not_nan _ _ _ _ Hok) as [Hp Ha].
  destruct (latest_reflects_later_append env env' sym p a s Hq Hw Hok Hlater)
    as (s' & result & H1 & H2 & H3 & H4).
  rewrite H1. cbn [snd]. rewrite H2. cbn [fst].
  eexists. eexists. split; [reflexivity|]. split; [exact H3|].
  cbn [data_storage.symbol data_storage.price data_storage.atr timestamp].
  split; [reflexivity|]. split; [reflexivity|].
  split; [apply stored_real_eqb, Hp|].
  split; [apply stored_real_eqb, Ha | exact H4].
Qed.

Lemma later_append_is_shown_witness :
  let s := snd (appends same_second db_manager) in
  exists (result : list Dict) (d : Dict),
    fst (get_latest_data_per_symbol (healthy 1700000100)
           (snd (insert_data (healthy 1700000060) "AAPL" 152.5 2.25 s))) =
      inl result /\
    In d result /\
    data_storage.symbol d = "AAPL" /\
    timestamp d = 1700000060 /\
    (data_storage.price d =? 152.5)%float = true /\
    (data_storage.atr d =? 2.25)%float = true /\
    (forall d', In d' result -> data_storage.symbol d' = "AAPL" -> d' = d).
Proof.
  intros s.
  apply (later_append_is_shown (healthy 1700000060) (healthy 1700000100)
           "AAPL" 152.5 2.25 s).
  - reflexivity.
  - intros c. reflexivity.
  - reflexivity.
  - intros r [<-|[<-|[]]] _; simpl; lia.
Defined.

(** ** The health check *)

Lemma select_latest_count (table : list Row) :
  List.length (select_latest table) =
  List.length (nodup string_dec (map col_symbol table)).
Proof.
  rewrite <- (length_map col_symbol (select_latest table)).
  apply Permutation_length, NoDup_Permutation.
  - apply select_latest_NoDup.
  - apply NoDup_nodup.
  - intros sym. rewrite select_latest_symbols, nodup_In. reflexivity.
Qed.

(** X13: on a working medium, after any sequence of appends on the fresh
    manager, [GET /health] counts the distinct symbols of the confirmed
    appends. *)
Theorem health_counts_the_symbols (calls : list Append) (env : Medium) :
  works env ->
  fst (health_check env (snd (appends calls db_manager))) =
    inl {| health_status := "healthy";
           health_database := "connected";
           records_count :=
             Some (Z.of_nat
                     (List.length
                        (nodup string_dec
                           (map call_symbol
                                (fst (appends calls db_manager))))));
           health_error := None |}.
Proof.
  intros Hw.
  destruct (appends_table calls db_manager eq_refl) as [Hq Ht].
  simpl in Ht.
  unfold health_check. unfold_py.
  rewrite (get_latest_run env _ Hw Hq). cbn [fst].
  rewrite length_map, select_latest_count.
  rewrite <- map_symbol_dict, Ht, map_map. reflexivity.
Qed.

Lemma health_counts_the_symbols_witness :
  fst (health_check (healthy 1700000100)
         (snd (appends same_second db_manager))) =
    inl {| health_status := "healthy";
           health_database := "connected";
           records_count := Some 1;
           health_error := None |}.
Proof.
  apply (health_counts_the_symbols same_second (healthy 1700000100)).
  intros c. reflexivity.
Defined.

(** ** The webhook endpoint *)

Lemma post_webhook_accepted
      (env : Medium) (d : WebhookData) (s : DatabaseManager) :
  quiet s -> accepted env d s = true ->
  post_webhook env d s =
    (if renders (confirmation d)
     then {| status_code := 200; body := Json (confirmation d) |}
     else {| status_code := 500; body := Text "Internal Server Error" |},
     {| db_file :=
          {| investment_data :=
               investment_data (db_file s) ++
               [new_row env s (symbol d) (price d) (atr d)];
             sqlite_sequence := sqlite_sequence (db_file s) + 1 |};
        local_connection := Some {| pending := [] |} |}).
Proof.
  unfold accepted. intros Hq H.
  apply andb_prop in H as [H Hok]. apply andb_prop in H as [Hp Ha].
  apply negb_true_iff in Hp, Ha.
  rewrite post_webhook_run, Hp, Ha, Hok, (insert_data_true _ _ _ _ _ Hok).
  rewrite (quiet_visible s Hq). unfold quiet in Hq.
  unfold uncommitted. rewrite Hq. cbn [pending List.length snd].
  rewrite Z.add_0_r. reflexivity.
Qed.

Lemma post_webhook_not_accepted
      (env : Medium) (d : WebhookData) (s : DatabaseManager) :
  quiet s -> accepted env d s = false ->
  snd (post_webhook env d s) = s /\
  (status_code (fst (post_webhook env d s)) =? 200) = false /\
  handler_returned (fst (post_webhook env d s)) = false.
Proof.
  unfold accepted. intros Hq H. rewrite post_webhook_run.
  destruct (price d <=? 0)%float; [repeat split|].
  destruct (atr d <? 0)%float; [repeat split|].
  cbn [negb andb] in H. rewrite H.
  rewrite (insert_data_false _ _ _ _ _ H), (quiet_after_failure _ _ Hq).
  repeat split.
Qed.


(** X15: a NaN is not caught by the validation. A payload whose price or
    ATR is a NaN and which passes the two comparisons is handed to the
    store, which refuses it: the answer is 500 "Failed to store data", not
    400, and the manager is left as it was. *)
Theorem nan_payload_is_a_server_error
        (env : Medium) (d : WebhookData) (s : DatabaseManager) :
  quiet s ->
  (price d <=? 0)%float = false ->
  (atr d <? 0)%float = false ->
  is_nan (price d) = true \/ is_nan (atr d) = true ->
  post_webhook env d s =
    ({| status_code := 500; body := Detail "Failed to store data" |}, s).
Proof.
  intros Hq Hp Ha Hnan.
  assert (Hok : insert_goes_through env s (price d) (atr d) = false).
  { unfold insert_goes_through.
    destruct Hnan as [-> | ->]; cbn [negb];
      rewrite ?andb_false_r; reflexivity. }
  rewrite post_webhook_run, Hp, Ha, Hok.
  rewrite (insert_data_false _ _ _ _ _ Hok), (quiet_after_failure _ _ Hq).
  reflexivity.
Qed.

Lemma nan_payload_is_a_server_error_witness :
  post_webhook (healthy 1700000000)
    {| symbol := "AAPL"; price := nan; atr := 2.35 |} db_manager =
    ({| status_code := 500; body := Detail "Failed to store data" |},
     db_manager).
Proof.
  apply (nan_payload_is_a_server_error (healthy 1700000000)
           {| symbol := "AAPL"; price := nan; atr := 2.35 |} db_manager);
    try reflexivity.
  left. reflexivity.
Defined.

(** X16: rows go with the requests on which the handler returned. After
    any sequence of requests the table is the table before with rows added
    behind it: one for each request answered 200 and one for each request
    answered with the plain 500 of a confirmation that did not render, and
    none for a request answered 400 or 500 "Failed to store data". So
    every 200 has its row, and the manager is again without uncommitted
    rows. *)
Theorem one_row_for_each_return
        (requests : list (Medium * WebhookData)) (s : DatabaseManager) :
  quiet s ->
  quiet (snd (posts requests s)) /\
  exists added : list Row,
    investment_data (db_file (snd (posts requests s))) =
      investment_data (db_file s) ++ added /\
    List.length added = returns (fst (posts requests s)) /\
    (successes (fst (posts requests s)) <= List.length added)%nat.
Proof.
  revert s. induction requests as [|[env d] requests IH]; intros s Hq.
  - split; [exact Hq|]. exists []. split; [symmetry; apply app_nil_r|].
    split; [reflexivity | apply Nat.le_refl].
  - cbn [posts].
    destruct (accepted env d s) eqn:E.
    + rewrite (post_webhook_accepted env d s Hq E).
      match goal with
      | |- context [posts requests ?s1] =>
          destruct (IH s1 eq_refl) as (IH1 & added & IH2 & IH3 & IH4);
          destruct (posts requests s1) as [rs s2]
      end.
      cbn [fst snd] in *. split; [exact IH1|].
      eexists (_ :: added). split.
      * rewrite IH2. cbn [db_file investment_data].
        rewrite <- app_assoc. reflexivity.
      * unfold successes, returns in *.
        destruct (renders (confirmation d)); cbn; rewrite IH3; split; lia.
    + destruct (post_webhook_not_accepted env d s Hq E) as (Hs & Hr & Hb).
      destruct (post_webhook env d s) as [r s1]. cbn [fst snd] in Hs, Hr, Hb.
      subst s1.
      destruct (IH s Hq) as (IH1 & added & IH2 & IH3 & IH4).
      destruct (posts requests s) as [rs s2].
      cbn [fst snd] in *. split; [exact IH1|].
      exists added. split; [exact IH2|].
      unfold successes, returns in *. cbn [filter]. rewrite Hr, Hb.
      split; assumption.
Qed.

Lemma one_row_for_each_return_witness :
  let requests :=
    [ (healthy 1700000000,
       {| symbol := "AAPL"; price := 150.25; atr := 2.35 |});
      (healthy 1700000001,
       {| symbol := "AAPL"; price := (-1)%float; atr := 2.35 |});
      (commit_fails 1700000002,
       {| symbol := "MSFT"; price := 330; atr := 4.5 |});
      (healthy 1700000003,
       {| symbol := "MSFT"; price := infinity; atr := 4.5 |}) ] in
  map status_code (fst (posts requests db_manager)) = [200; 400; 500; 500] /\
  quiet (snd (posts requests db_manager)) /\
  exists added : list Row,
    investment_data (db_file (snd (posts requests db_manager))) =
      investment_data (db_file db_manager) ++ added /\
    List.length added = 2%nat.
Proof.
  intros requests. split; [reflexivity|].
  destruct (one_row_for_each_return requests db_manager eq_refl)
    as (H1 & added & H2 & H3 & _).
  split; [exact H1|]. exists added. split; [exact H2 | exact H3].
Defined.

(** X17: the endpoint guards the table. If every row passes the two
    comparisons of the validation and holds no NaN, then so does every row
    after any sequence of requests. *)
Theorem stored_rows_pass_validation
        (requests : list (Medium * WebhookData)) (s : DatabaseManager) :
  quiet s ->
  Forall passes_validation (investment_data (db_file s)) ->
  Forall passes_validation
         (investment_data (db_file (snd (posts requests s)))).
Proof.
  revert s. induction requests as [|[env d] requests IH]; intros s Hq Hv;
    [exact Hv|].
  cbn [posts].
  destruct (accepted env d s) eqn:E.
  - rewrite (post_webhook_accepted env d s Hq E).
    match goal with
    | |- context [posts requests ?s1] =>
        assert (Hv1 : Forall passes_validation (investment_data (db_file s1)));
        [|specialize (IH s1 eq_refl Hv1);
          destruct (posts requests s1) as [rs s2]; exact IH]
    end.
    cbn [db_file investment_data]. rewrite Forall_app. split; [exact Hv|].
    constructor; [|constructor].
    unfold accepted in E.
    apply andb_prop in E as [E Hok]. apply andb_prop in E as [Hp Ha].
    apply negb_true_iff in Hp, Ha.
    destruct (insert_goes_through_not_nan _ _ _ _ Hok) as [Np Na].
    unfold passes_validation, new_row. cbn [col_price col_atr].
    rewrite (stored_real_price _ Hp).
    split; [exact Hp|]. split; [apply stored_real_not_negative, Ha|].
    split; [exact Np | apply stored_real_not_nan, Na].
  - destruct (post_webhook_not_accepted env d s Hq E) as [Hs _].
    destruct (post_webhook env d s) as [r s1]. cbn [snd] in Hs. subst s1.
    specialize (IH s Hq Hv).
    destruct (posts requests s) as [rs s2]. exact IH.
Qed.

Lemma stored_rows_pass_validation_witness :
  Forall passes_validation
    (investment_data
       (db_file
          (snd (posts
                  [ (healthy 1700000000,
                     {| symbol := "AAPL"; price := 150.25; atr := 2.35 |});
                    (healthy 1700000001,
                     {| symbol := "AAPL"; price := nan; atr := 2.35 |}) ]
                  db_manager)))).
Proof.
  apply stored_rows_pass_validation; [reflexivity | constructor].
Defined.

(** ** The dashboard *)

Lemma select_latest_nil_iff (table : list Row) :
  select_latest table = [] <-> table = [].
Proof.
  split; [|intros ->; reflexivity].
  destruct table as [|r table]; [reflexivity|]. intros H.
  assert (Hin : In (col_symbol r)
                   (map col_symbol (select_latest (r :: table)))).
  { apply select_latest_symbols. left. reflexivity. }
  rewrite H in Hin. destruct Hin.
Qed.

Lemma get_latest_any (env : Medium) (s : DatabaseManager) :
  fst (get_latest_data_per_symbol env s) =
    inl (if load_fails env s then []
         else map dict (select_latest (visible s))).
Proof.
  unfold get_latest_data_per_symbol, load_fails, read_fails, visible,
    uncommitted.
  unfold_sqlite3; unfold_py.
  destruct s as [db [c|]]; cbn [local_connection db_file pending];
    destruct (fails env Connect), (fails env Cursor), (fails env Execute),
      (fails env Fetchall); reflexivity.
Qed.

(** X18: the dashboard shows its "no data available" page in these cases
    and no other, whatever state the manager is in: the connection sees no
    row, or the read could not be made, because the thread has no
    connection and none can be opened or because a call of the read failed
    on the medium. A storage failure therefore looks like an empty
    store. *)
Theorem dashboard_no_data_page (env : Medium) (s : DatabaseManager) :
  fst (dashboard.main env s) = inl dashboard.No_data_available <->
  load_fails env s = true \/ visible s = [].
Proof.
  unfold dashboard.main, dashboard.load_data. unfold_py.
  pose proof (get_latest_any env s) as H.
  destruct (get_latest_data_per_symbol env s) as [[data|e] s'];
    cbn [fst] in H |- *; [|discriminate H].
  injection H as ->.
  destruct (load_fails env s); [split; auto|].
  destruct (select_latest (visible s)) as [|x l] eqn:E.
  - apply (proj1 (select_latest_nil_iff _)) in E. split; auto.
  - cbn [map]. split; [discriminate|].
    intros [H|H]; [discriminate|].
    rewrite H in E. discriminate E.
Qed.

Lemma dashboard_no_data_page_witness :
  let s := {| db_file := db_file (snd (appends same_second db_manager));
              local_connection := None |} in
  let env := {| current_timestamp := 1700000100;
                fails := fun c => match c with
                                  | Connect => true
                                  | _ => false
                                  end |} in
  read_fails env = false /\
  List.length (investment_data (db_file s)) = 2%nat /\
  fst (dashboard.main env s) = inl dashboard.No_data_available.
Proof.
  intros s env. split; [reflexivity|]. split; [reflexivity|].
  apply (dashboard_no_data_page env s). left. reflexivity.
Defined.

(** X19: from the webhook to the dashboard. When a request is answered 200
    at a clock reading later than every row of its symbol, the page that is
    loaded next on a working medium has exactly one line for the symbol;
    its price and ATR are equal ([==]) to those sent, and its exit price
    is the [exit_price] the sender was given. *)
Theorem accepted_webhook_is_on_the_dashboard
        (env env' : Medium) (d : WebhookData) (s : DatabaseManager) :
  quiet s -> works env' ->
  status_code (fst (post_webhook env d s)) = 200 ->
  (forall r, In r (investment_data (db_file s)) -> col_symbol r = symbol d ->
             col_timestamp r < current_timestamp env) ->
  exists (n : Z) (df : list dashboard.Line) (line : dashboard.Line),
    fst (dashboard.main env' (snd (post_webhook env d s))) =
      inl (dashboard.Investment_data n df) /\
    In line df /\
    dashboard.Symbol line = symbol d /\
    (dashboard.Price line =? price d)%float = true /\
    (dashboard.ATR line =? atr d)%float = true /\
    dashboard.Exit_Price line = exit_price (data (confirmation d)) /\
    (forall line', In line' df -> dashboard.Symbol line' = symbol d ->
                   line' = line).
Proof.
  intros Hq Hw H200 Hlater.
  destruct (accepted env d s) eqn:E.
  2:{ destruct (post_webhook_not_accepted env d s Hq E) as (_ & H & _).
      rewrite H200 in H. discriminate H. }
  unfold accepted in E.
  apply andb_prop in E as [E Hok]. apply andb_prop in E as [Hp Ha].
  apply negb_true_iff in Hp, Ha.
  destruct (insert_goes_through_not_nan _ _ _ _ Hok) as [Np Na].
  destruct (latest_reflects_later_append env env' (symbol d) (price d)
              (atr d) s Hq Hw Hok Hlater)
    as (s' & result & H1 & H2 & H3 & H4).
  rewrite post_webhook_run, Hp, Ha, H1. cbn [snd].
  unfold dashboard.main, dashboard.load_data. unfold_py. rewrite H2.
  cbn [fst].
  destruct result as [|d0 result]; [destruct H3|].
  set (listed := d0 :: result) in *.
  exists (Z.of_nat (List.length listed)), (dashboard.data_frame listed).
  eexists. split; [reflexivity|].
  unfold dashboard.data_frame.
  split; [apply (in_map _ _ _ H3)|].
  cbn [dashboard.Symbol dashboard.Price dashboard.ATR dashboard.Exit_Price
       data_storage.symbol data_storage.price data_storage.atr].
  split; [reflexivity|].
  split; [apply stored_real_eqb, Np|].
  split; [apply stored_real_eqb, Na|].
  split; [apply stored_real_exit_price, Hp|].
  intros line' Hl Hs.
  apply in_map_iff in Hl. destruct Hl as (d' & <- & Hd').
  cbn [dashboard.Symbol] in Hs. rewrite (H4 d' Hd' Hs). reflexivity.
Qed.

Lemma accepted_webhook_is_on_the_dashboard_witness :
  let d := {| symbol := "AAPL"; price := 150.25; atr := 2.35 |} in
  exists (n : Z) (df : list dashboard.Line) (line : dashboard.Line),
    fst (dashboard.main (healthy 1700000100)
           (snd (post_webhook (healthy 1700000000) d db_manager))) =
      inl (dashboard.Investment_data n df) /\
    In line df /\
    dashboard.Symbol line = "AAPL" /\
    (dashboard.Price line =? 150.25)%float = true /\
    (dashboard.ATR line =? 2.35)%float = true /\
    dashboard.Exit_Price line = 147.9%float /\
    (forall line', In line' df -> dashboard.Symbol line' = "AAPL" ->
                   line' = line).
Proof.
  intros d.
  apply (accepted_webhook_is_on_the_dashboard
           (healthy 1700000000) (healthy 1700000100) d db_manager).
  - reflexivity.
  - intros c. reflexivity.
  - reflexivity.
  - intros r [].
Defined.

(** ** The Flask receiver *)













(** ** The WSGI entry *)

(** X22: the path set-up of [wsgi.py] can be run any number of times:
    after it the project directory is on the path, a second run changes
    nothing, and a path without repetitions stays without. *)
Theorem project_home_added_once (sys_path : list string) :
  In wsgi.project_home (wsgi.add_project_home sys_path) /\
  wsgi.add_project_home (wsgi.add_project_home sys_path) =
    wsgi.add_project_home sys_path /\
  (NoDup sys_path -> NoDup (wsgi.add_project_home sys_path)).
Proof.
  unfold wsgi.add_project_home.
  destruct (existsb (String.eqb wsgi.project_home) sys_path) eqn:E.
  - rewrite E. split; [|split; auto].
    apply existsb_exists in E. destruct E as (x & Hx & Heq).
    apply String.eqb_eq in Heq. rewrite Heq. exact Hx.
  - split; [left; reflexivity|]. split.
    + cbn [existsb]. rewrite String.eqb_refl. reflexivity.
    + intros Hnd. constructor; [|exact Hnd].
      intros Hin.
      assert (existsb (String.eqb wsgi.project_home) sys_path = true).
      { apply existsb_exists. exists wsgi.project_home.
        split; [exact Hin | apply String.eqb_refl]. }
      congruence.
Qed.

Lemma project_home_added_once_witness :
  wsgi.add_project_home ["/usr/lib/python3"] =
    [wsgi.project_home; "/usr/lib/python3"] /\
  NoDup (wsgi.add_project_home ["/usr/lib/python3"]).
Proof.
  split; [reflexivity|].
  apply (project_home_added_once ["/usr/lib/python3"]).
  repeat constructor. intros [].
Defined.

